(** * The Win32 serial backend of libdivecomputer (src/serial_win32.c)

    A shallow embedding of the serial stream backend: the functions of
    [serial_win32.c] are written as programs that call the operating
    system, every Win32 entry point being a [call] whose [answer] the
    system supplies.  A program is run against an arbitrary model of the
    system ([os]), and a run yields the trace of calls with their answers,
    the returned value and the final state of the system. *)

From Stdlib Require Import ZArith List Bool Lia String Ascii.
From Stdlib Require Import SpecFloat.
Import ListNotations.

#[local] Open Scope Z_scope.

(** ** Machine integers

    [unsigned int], [unsigned long] and [DWORD] are 32 bits wide on every
    Windows target (LLP64); [int] is their signed counterpart.  Values are
    kept in [Z] and the wrap-around of the C arithmetic is written out. *)

Definition UINT_MAX : Z := 4294967295.
Definition INT_MIN : Z := -2147483648.
Definition INT_MAX : Z := 2147483647.
Definition MAXDWORD : Z := 4294967295.

Definition to_uint32 (z : Z) : Z := z mod 4294967296.
Definition to_int32 (z : Z) : Z := (z + 2147483648) mod 4294967296 - 2147483648.

Definition DWORD : Type := Z.
Definition HANDLE : Type := Z.
Definition HKEY : Type := Z.

(** ** Constants of the Windows SDK ([winerror.h], [winbase.h], [winnt.h]) *)

Definition ERROR_SUCCESS : Z := 0.
Definition ERROR_FILE_NOT_FOUND : Z := 2.
Definition ERROR_ACCESS_DENIED : Z := 5.
Definition ERROR_OUTOFMEMORY : Z := 14.
Definition ERROR_INVALID_PARAMETER : Z := 87.

Definition REG_SZ : Z := 1.
Definition MAX_PATH : Z := 260.

Definition NOPARITY : Z := 0.
Definition ODDPARITY : Z := 1.
Definition EVENPARITY : Z := 2.
Definition MARKPARITY : Z := 3.
Definition SPACEPARITY : Z := 4.

Definition ONESTOPBIT : Z := 0.
Definition ONE5STOPBITS : Z := 1.
Definition TWOSTOPBITS : Z := 2.

Definition DTR_CONTROL_ENABLE : Z := 1.
Definition DTR_CONTROL_HANDSHAKE : Z := 2.
Definition RTS_CONTROL_ENABLE : Z := 1.
Definition RTS_CONTROL_HANDSHAKE : Z := 2.

Definition PURGE_TXABORT : Z := 1.
Definition PURGE_RXABORT : Z := 2.
Definition PURGE_TXCLEAR : Z := 4.
Definition PURGE_RXCLEAR : Z := 8.

Definition SETRTS : Z := 3.
Definition CLRRTS : Z := 4.
Definition SETDTR : Z := 5.
Definition CLRDTR : Z := 6.

Definition MS_CTS_ON : Z := 16.
Definition MS_DSR_ON : Z := 32.
Definition MS_RING_ON : Z := 64.
Definition MS_RLSD_ON : Z := 128.

(** ** Status codes

    Modelled from the spec: the enumeration [dc_status_t] of [common.h],
    which is not among the sources.  The spec names the portable codes
    SUCCESS, INVALID_ARGUMENTS, OUT_OF_MEMORY, NO_DEVICE, NO_ACCESS,
    IO_ERROR and TIMEOUT, plus an outcome for unsupported operations. *)
Inductive dc_status_t : Type :=
| DC_STATUS_SUCCESS
| DC_STATUS_UNSUPPORTED
| DC_STATUS_INVALIDARGS
| DC_STATUS_NOMEMORY
| DC_STATUS_NODEVICE
| DC_STATUS_NOACCESS
| DC_STATUS_IO
| DC_STATUS_TIMEOUT.

Definition dc_status_eqb (a b : dc_status_t) : bool :=
  match a, b with
  | DC_STATUS_SUCCESS, DC_STATUS_SUCCESS
  | DC_STATUS_UNSUPPORTED, DC_STATUS_UNSUPPORTED
  | DC_STATUS_INVALIDARGS, DC_STATUS_INVALIDARGS
  | DC_STATUS_NOMEMORY, DC_STATUS_NOMEMORY
  | DC_STATUS_NODEVICE, DC_STATUS_NODEVICE
  | DC_STATUS_NOACCESS, DC_STATUS_NOACCESS
  | DC_STATUS_IO, DC_STATUS_IO
  | DC_STATUS_TIMEOUT, DC_STATUS_TIMEOUT => true
  | _, _ => false
  end.

(** Modelled from the spec: [dc_status_set_error] of [common-private.h],
    which is not among the sources.  The spec has close "accumulate the
    first error and continue": an error is stored only while the
    accumulated status is still success. *)
Definition dc_status_set_error (status error : dc_status_t) : dc_status_t :=
  match status with
  | DC_STATUS_SUCCESS => error
  | _ => status
  end.

(** [syserror]: the translation of a native error code. *)
Definition syserror (errcode : DWORD) : dc_status_t :=
  if errcode =? ERROR_INVALID_PARAMETER then DC_STATUS_INVALIDARGS
  else if errcode =? ERROR_OUTOFMEMORY then DC_STATUS_NOMEMORY
  else if errcode =? ERROR_FILE_NOT_FOUND then DC_STATUS_NODEVICE
  else if errcode =? ERROR_ACCESS_DENIED then DC_STATUS_NOACCESS
  else DC_STATUS_IO.

(** ** The enumerations of [serial.h]

    The header that declares [dc_parity_t], [dc_stopbits_t],
    [dc_flowcontrol_t], [dc_direction_t] and the line flags is not among the
    sources.  The source passes enumerators around as C integers (it
    switches on them, tests [parity] for zero and adds [stopbits] to a
    count), so the functions below take them as integers and the numbering
    of the header is a parameter of the development. *)
Record serial_h : Type := {
  DC_PARITY_NONE : Z;
  DC_PARITY_ODD : Z;
  DC_PARITY_EVEN : Z;
  DC_PARITY_MARK : Z;
  DC_PARITY_SPACE : Z;
  DC_STOPBITS_ONE : Z;
  DC_STOPBITS_ONEPOINTFIVE : Z;
  DC_STOPBITS_TWO : Z;
  DC_FLOWCONTROL_NONE : Z;
  DC_FLOWCONTROL_HARDWARE : Z;
  DC_FLOWCONTROL_SOFTWARE : Z;
  DC_DIRECTION_INPUT : Z;
  DC_DIRECTION_OUTPUT : Z;
  DC_DIRECTION_ALL : Z;
  DC_LINE_DCD : Z;
  DC_LINE_CTS : Z;
  DC_LINE_DSR : Z;
  DC_LINE_RNG : Z
}.

(** The numbering C gives enumerators that are declared without
    initialisers: 0, 1, 2, ... in the order of declaration.  The directions
    and the lines, which are combined as flags, are given one bit each. *)
Definition c_numbering : serial_h := {|
  DC_PARITY_NONE := 0;
  DC_PARITY_ODD := 1;
  DC_PARITY_EVEN := 2;
  DC_PARITY_MARK := 3;
  DC_PARITY_SPACE := 4;
  DC_STOPBITS_ONE := 0;
  DC_STOPBITS_ONEPOINTFIVE := 1;
  DC_STOPBITS_TWO := 2;
  DC_FLOWCONTROL_NONE := 0;
  DC_FLOWCONTROL_HARDWARE := 1;
  DC_FLOWCONTROL_SOFTWARE := 2;
  DC_DIRECTION_INPUT := 1;
  DC_DIRECTION_OUTPUT := 2;
  DC_DIRECTION_ALL := 3;
  DC_LINE_DCD := 1;
  DC_LINE_CTS := 2;
  DC_LINE_DSR := 4;
  DC_LINE_RNG := 8
|}.

(** ** Data of the Win32 communication interface *)

(** The device control block.  The members the backend assigns are kept
    apart; [dcb_other] stands for all remaining members, which the backend
    passes on as it received them. *)
Record DCB : Type := {
  BaudRate : Z;
  fBinary : bool;
  fParity : bool;
  fOutxCtsFlow : bool;
  fOutxDsrFlow : bool;
  fDtrControl : Z;
  fOutX : bool;
  fInX : bool;
  fRtsControl : Z;
  fAbortOnError : bool;
  ByteSize : Z;
  Parity : Z;
  StopBits : Z;
  dcb_other : Z
}.

Record COMMTIMEOUTS : Type := {
  ReadIntervalTimeout : Z;
  ReadTotalTimeoutMultiplier : Z;
  ReadTotalTimeoutConstant : Z;
  WriteTotalTimeoutMultiplier : Z;
  WriteTotalTimeoutConstant : Z
}.

(** What [RegEnumValueA] hands back: its return code, the type of the
    value and the bytes it stored in the data buffer ([data_len] is their
    number). *)
Record reg_value : Type := {
  rv_rc : Z;
  rv_type : Z;
  rv_data : string
}.

(** What [ReadFile] and [WriteFile] hand back: their BOOL and the value
    they leave in the byte counter, which the caller has set to 0. *)
Record transfer : Type := {
  tr_ok : bool;
  tr_count : DWORD
}.

(** ** Calls into the system

    One constructor per entry point the file uses; arguments that are
    constant in the source (access flags, NULL pointers, buffer sizes) are
    left out.  The bytes of a read or write travel between the caller's
    buffer and the driver and are never inspected here, so only their
    number appears.  [SYSERROR] and [INFO] are the diagnostic macros,
    [callback] is the caller's enumeration callback, and
    [dc_iostream_allocate] / [dc_iostream_deallocate] are the stream
    allocator of [iostream.c]. *)
Inductive call : Type :=
| GetLastError
| SYSERROR (errcode : DWORD)
| INFO (name : string)
| dc_iostream_allocate
| dc_iostream_deallocate
| CreateFileA (devname : string)
| CloseHandle (h : HANDLE)
| GetCommState (h : HANDLE)
| SetCommState (h : HANDLE) (dcb : DCB)
| GetCommTimeouts (h : HANDLE)
| SetCommTimeouts (h : HANDLE) (timeouts : COMMTIMEOUTS)
| ReadFile (h : HANDLE) (size : DWORD)
| WriteFile (h : HANDLE) (size : DWORD)
| QueryPerformanceFrequency
| QueryPerformanceCounter
| Sleep (milliseconds : DWORD)
| PurgeComm (h : HANDLE) (flags : DWORD)
| FlushFileBuffers (h : HANDLE)
| SetCommBreak (h : HANDLE)
| ClearCommBreak (h : HANDLE)
| EscapeCommFunction (h : HANDLE) (func : Z)
| ClearCommError (h : HANDLE)
| GetCommModemStatus (h : HANDLE)
| RegOpenKeyExA
| RegQueryInfoKey (hKey : HKEY)
| RegEnumValueA (hKey : HKEY) (index : DWORD)
| RegCloseKey (hKey : HKEY)
| callback (data : string) (userdata : Z).

(** The answer of the system to a call.  A BOOL function with an output
    parameter answers [Some v] (TRUE, [v] stored) or [None] (FALSE);
    [CreateFileA] answers [None] for INVALID_HANDLE_VALUE. *)
Definition answer (c : call) : Type :=
  match c with
  | GetLastError => DWORD
  | SYSERROR _ | INFO _ | dc_iostream_deallocate | Sleep _
  | RegCloseKey _ | callback _ _ => unit
  | dc_iostream_allocate => bool
  | CreateFileA _ => option HANDLE
  | CloseHandle _ | SetCommState _ _ | SetCommTimeouts _ _
  | PurgeComm _ _ | FlushFileBuffers _ | SetCommBreak _ | ClearCommBreak _
  | EscapeCommFunction _ _ => bool
  | GetCommState _ => option DCB
  | GetCommTimeouts _ => option COMMTIMEOUTS
  | ReadFile _ _ | WriteFile _ _ => transfer
  | QueryPerformanceFrequency | QueryPerformanceCounter => option Z
  | ClearCommError _ => option DWORD
  | GetCommModemStatus _ => option DWORD
  | RegOpenKeyExA => Z * HKEY
  | RegQueryInfoKey _ => Z * DWORD
  | RegEnumValueA _ _ => reg_value
  end.

(** ** Programs

    A program returns, calls the system and goes on with the answer, or
    runs into behaviour the C standard leaves undefined. *)
Inductive prog (R : Type) : Type :=
| Ret (r : R)
| Undefined
| Call (c : call) (k : answer c -> prog R).

Arguments Ret {R} r.
Arguments Undefined {R}.
Arguments Call {R} c k.

Fixpoint bind {A B : Type} (p : prog A) (f : A -> prog B) : prog B :=
  match p with
  | Ret a => f a
  | Undefined => Undefined
  | Call c k => Call c (fun a => bind (k a) f)
  end.

Definition sys (c : call) : prog (answer c) := Call c Ret.

Declare Scope prog_scope.
Delimit Scope prog_scope with prog.
Bind Scope prog_scope with prog.

Notation "x <- p ;; q" := (bind p (fun x => q))
  (at level 61, p at next level, right associativity) : prog_scope.
Notation "p ;; q" := (bind p (fun _ => q))
  (at level 61, right associativity) : prog_scope.

#[local] Open Scope prog_scope.

(** ** Running a program against a model of the system

    A model of the system has a state of its own and answers every call
    from it.  A run collects the calls with their answers in the order in
    which they were made; its [result] is [None] when the program ran into
    undefined behaviour. *)

Record os (W : Type) : Type := {
  respond : forall c : call, W -> answer c * W
}.

Arguments respond {W} _ c _.

Inductive io : Type :=
| IO (c : call) (a : answer c).

Definition io_call (e : io) : call :=
  match e with IO c _ => c end.

Record outcome (W R : Type) : Type := {
  trace : list io;
  result : option R;
  world : W
}.

Arguments trace {W R} _.
Arguments result {W R} _.
Arguments world {W R} _.

Fixpoint run {W R : Type} (m : os W) (p : prog R) (w : W) : outcome W R :=
  match p with
  | Ret r => {| trace := []; result := Some r; world := w |}
  | Undefined => {| trace := []; result := None; world := w |}
  | Call c k =>
      let (a, w1) := respond m c w in
      match run m (k a) w1 with
      | {| trace := t; result := r; world := w2 |} =>
          {| trace := IO c a :: t; result := r; world := w2 |}
      end
  end.

Definition calls {W R : Type} (o : outcome W R) : list call :=
  map io_call (trace o).

(** ** Double precision arithmetic

    The turnaround computation of [dc_serial_write] is carried out in
    [double].  It is modelled with the IEEE 754 binary64 format of the
    standard library's [SpecFloat], every operation rounding to nearest
    even. *)
Module Double.

Definition prec : Z := 53.
Definition emax : Z := 1024.

Definition double : Type := spec_float.

(** Conversion of an integer to [double]. *)
Definition of_Z (z : Z) : double := binary_normalize prec emax z 0 false.

Definition mul (x y : double) : double := SFmul prec emax x y.
Definition div (x y : double) : double := SFdiv prec emax x y.
Definition add (x y : double) : double := SFadd prec emax x y.

(** The literal [0.5]. *)
Definition half : double := binary_normalize prec emax 1 (-1) false.

(** The integral part of a finite value (rounding toward zero). *)
Definition integral_part (x : double) : option Z :=
  match x with
  | S754_zero _ => Some 0
  | S754_finite s m e =>
      Some (cond_Zopp s (if 0 <=? e then Z.pos m * 2 ^ e
                         else Z.pos m / 2 ^ (- e)))
  | S754_infinity _ | S754_nan => None
  end.

(** Conversion to [unsigned long]: the fractional part is discarded, and
    the behaviour is undefined ([None]) when the integral part is not
    representable, in particular for infinities and NaN. *)
Definition to_ulong (x : double) : option Z :=
  match integral_part x with
  | Some z => if (0 <=? z) && (z <=? UINT_MAX) then Some z else None
  | None => None
  end.

(** Infinities and NaN. *)
Definition not_finite (x : double) : bool :=
  match x with
  | S754_infinity _ | S754_nan => true
  | S754_zero _ | S754_finite _ _ _ => false
  end.

End Double.

(** ** The session state [dc_serial_t] *)
Record dc_serial_t : Type := {
  hFile : HANDLE;
  dcb : DCB;
  timeouts : COMMTIMEOUTS;
  halfduplex : Z;
  baudrate : Z;
  nbits : Z
}.

Definition set_halfduplex (device : dc_serial_t) (v : Z) : dc_serial_t :=
  {| hFile := hFile device; dcb := dcb device; timeouts := timeouts device;
     halfduplex := v; baudrate := baudrate device; nbits := nbits device |}.

Definition set_baudrate_nbits (device : dc_serial_t) (b n : Z) : dc_serial_t :=
  {| hFile := hFile device; dcb := dcb device; timeouts := timeouts device;
     halfduplex := halfduplex device; baudrate := b; nbits := n |}.

(** The three lines that follow every failed call:
    [errcode = GetLastError (); SYSERROR (context, errcode);] and the use of
    [syserror (errcode)]. *)
Definition last_error : prog dc_status_t :=
  errcode <- sys GetLastError ;;
  sys (SYSERROR errcode) ;;
  Ret (syserror errcode).

(** ** [dc_serial_enumerate] *)

(** A buffer read as a C string: the characters before the first NUL. *)
Fixpoint c_string (s : string) : string :=
  match s with
  | EmptyString => EmptyString
  | String c s' => if Ascii.eqb c zero then EmptyString else String c (c_string s')
  end.

Definition sizeof_data : Z := 512.

(** The loop [for (i = 0; i < count; ++i)], with [n] iterations left to
    run from index [i]. *)
Fixpoint enumerate_values (hKey : HKEY) (userdata : Z) (n : nat) (i : Z)
  : prog dc_status_t :=
  match n with
  | O =>
      sys (RegCloseKey hKey) ;;
      Ret DC_STATUS_SUCCESS
  | S n' =>
      v <- sys (RegEnumValueA hKey i) ;;
      if negb (rv_rc v =? ERROR_SUCCESS) then
        sys (RegCloseKey hKey) ;;
        Ret DC_STATUS_IO
      else if negb (rv_type v =? REG_SZ) then
        enumerate_values hKey userdata n' (i + 1)
      else if sizeof_data <=? Z.of_nat (String.length (rv_data v)) then
        sys (RegCloseKey hKey) ;;
        Ret DC_STATUS_NOMEMORY
      else
        sys (callback (c_string (rv_data v)) userdata) ;;
        enumerate_values hKey userdata n' (i + 1)
  end.

Definition dc_serial_enumerate (userdata : Z) : prog dc_status_t :=
  o <- sys RegOpenKeyExA ;;
  let (rc, hKey) := o : Z * HKEY in
  if negb (rc =? ERROR_SUCCESS) then
    if rc =? ERROR_FILE_NOT_FOUND then Ret DC_STATUS_SUCCESS
    else Ret DC_STATUS_IO
  else
    q <- sys (RegQueryInfoKey hKey) ;;
    let (rc, count) := q : Z * DWORD in
    if negb (rc =? ERROR_SUCCESS) then
      sys (RegCloseKey hKey) ;;
      Ret DC_STATUS_IO
    else
      enumerate_values hKey userdata (Z.to_nat count) 0.

(** ** [dc_serial_open] *)

(** The prefix of a device path, four characters: backslash, backslash,
    dot, backslash. *)
Definition device_prefix : string := "\\.\".

(** [strncmp (name, prefix, 4) != 0] decides whether the prefix is added. *)
Definition device_name (name : string) : string :=
  if String.prefix device_prefix name then name
  else device_prefix ++ name.

(** [out] and [name] may be null pointers; the result holds the status and,
    when [*out] has been assigned, the new session. *)
Definition dc_serial_open (out : bool) (name : option string)
  : prog (dc_status_t * option dc_serial_t) :=
  match out, name with
  | true, Some name =>
      sys (INFO name) ;;
      if negb (String.prefix device_prefix name)
         && (MAX_PATH <? Z.of_nat (String.length name) + 1 + 4)
      then Ret (DC_STATUS_NOMEMORY, None)
      else
        allocated <- sys dc_iostream_allocate ;;
        if negb allocated then
          sys (SYSERROR ERROR_OUTOFMEMORY) ;;
          Ret (DC_STATUS_NOMEMORY, None)
        else
          f <- sys (CreateFileA (device_name name)) ;;
          match f with
          | None =>
              status <- last_error ;;
              sys dc_iostream_deallocate ;;
              Ret (status, None)
          | Some h =>
              s <- sys (GetCommState h) ;;
              t <- match s with
                   | Some _ => sys (GetCommTimeouts h)
                   | None => Ret None
                   end ;;
              match s, t with
              | Some d, Some t =>
                  Ret (DC_STATUS_SUCCESS,
                       Some {| hFile := h; dcb := d; timeouts := t;
                               halfduplex := 0; baudrate := 0; nbits := 0 |})
              | _, _ =>
                  status <- last_error ;;
                  sys (CloseHandle h) ;;
                  sys dc_iostream_deallocate ;;
                  Ret (status, None)
              end
          end
  | _, _ => Ret (DC_STATUS_INVALIDARGS, None)
  end.

(** ** [dc_serial_close] *)
Definition dc_serial_close (device : dc_serial_t) : prog dc_status_t :=
  let status := DC_STATUS_SUCCESS in
  restored <- (ok <- sys (SetCommState (hFile device) (dcb device)) ;;
               if ok then sys (SetCommTimeouts (hFile device) (timeouts device))
               else Ret false) ;;
  status <- (if negb restored then
               e <- last_error ;; Ret (dc_status_set_error status e)
             else Ret status) ;;
  closed <- sys (CloseHandle (hFile device)) ;;
  status <- (if negb closed then
               e <- last_error ;; Ret (dc_status_set_error status e)
             else Ret status) ;;
  Ret status.

(** ** [dc_serial_configure] *)

Definition set_binary (d : DCB) (baud : Z) : DCB :=
  {| BaudRate := baud; fBinary := true; fParity := fParity d;
     fOutxCtsFlow := fOutxCtsFlow d; fOutxDsrFlow := fOutxDsrFlow d;
     fDtrControl := fDtrControl d; fOutX := fOutX d; fInX := fInX d;
     fRtsControl := fRtsControl d; fAbortOnError := false;
     ByteSize := ByteSize d; Parity := Parity d; StopBits := StopBits d;
     dcb_other := dcb_other d |}.

Definition set_ByteSize (d : DCB) (v : Z) : DCB :=
  {| BaudRate := BaudRate d; fBinary := fBinary d; fParity := fParity d;
     fOutxCtsFlow := fOutxCtsFlow d; fOutxDsrFlow := fOutxDsrFlow d;
     fDtrControl := fDtrControl d; fOutX := fOutX d; fInX := fInX d;
     fRtsControl := fRtsControl d; fAbortOnError := fAbortOnError d;
     ByteSize := v; Parity := Parity d; StopBits := StopBits d;
     dcb_other := dcb_other d |}.

Definition set_Parity (d : DCB) (v : Z) (f : bool) : DCB :=
  {| BaudRate := BaudRate d; fBinary := fBinary d; fParity := f;
     fOutxCtsFlow := fOutxCtsFlow d; fOutxDsrFlow := fOutxDsrFlow d;
     fDtrControl := fDtrControl d; fOutX := fOutX d; fInX := fInX d;
     fRtsControl := fRtsControl d; fAbortOnError := fAbortOnError d;
     ByteSize := ByteSize d; Parity := v; StopBits := StopBits d;
     dcb_other := dcb_other d |}.

Definition set_StopBits (d : DCB) (v : Z) : DCB :=
  {| BaudRate := BaudRate d; fBinary := fBinary d; fParity := fParity d;
     fOutxCtsFlow := fOutxCtsFlow d; fOutxDsrFlow := fOutxDsrFlow d;
     fDtrControl := fDtrControl d; fOutX := fOutX d; fInX := fInX d;
     fRtsControl := fRtsControl d; fAbortOnError := fAbortOnError d;
     ByteSize := ByteSize d; Parity := Parity d; StopBits := v;
     dcb_other := dcb_other d |}.

Definition set_flow (d : DCB) (inx outx cts dsr : bool) (dtr rts : Z) : DCB :=
  {| BaudRate := BaudRate d; fBinary := fBinary d; fParity := fParity d;
     fOutxCtsFlow := cts; fOutxDsrFlow := dsr;
     fDtrControl := dtr; fOutX := outx; fInX := inx;
     fRtsControl := rts; fAbortOnError := fAbortOnError d;
     ByteSize := ByteSize d; Parity := Parity d; StopBits := StopBits d;
     dcb_other := dcb_other d |}.

Section Serial.

(** The numbering of the enumerations in [serial.h]. *)
Variable hdr : serial_h.

(** The three [switch] statements; [None] is the [default] label. *)
Definition configure_parity (parity : Z) (d : DCB) : option DCB :=
  if parity =? DC_PARITY_NONE hdr then Some (set_Parity d NOPARITY false)
  else if parity =? DC_PARITY_EVEN hdr then Some (set_Parity d EVENPARITY true)
  else if parity =? DC_PARITY_ODD hdr then Some (set_Parity d ODDPARITY true)
  else if parity =? DC_PARITY_MARK hdr then Some (set_Parity d MARKPARITY true)
  else if parity =? DC_PARITY_SPACE hdr then Some (set_Parity d SPACEPARITY true)
  else None.

Definition configure_stopbits (stopbits : Z) (d : DCB) : option DCB :=
  if stopbits =? DC_STOPBITS_ONE hdr then Some (set_StopBits d ONESTOPBIT)
  else if stopbits =? DC_STOPBITS_ONEPOINTFIVE hdr then Some (set_StopBits d ONE5STOPBITS)
  else if stopbits =? DC_STOPBITS_TWO hdr then Some (set_StopBits d TWOSTOPBITS)
  else None.

Definition configure_flowcontrol (flowcontrol : Z) (d : DCB) : option DCB :=
  if flowcontrol =? DC_FLOWCONTROL_NONE hdr then
    Some (set_flow d false false false false DTR_CONTROL_ENABLE RTS_CONTROL_ENABLE)
  else if flowcontrol =? DC_FLOWCONTROL_HARDWARE hdr then
    Some (set_flow d false false true true DTR_CONTROL_HANDSHAKE RTS_CONTROL_HANDSHAKE)
  else if flowcontrol =? DC_FLOWCONTROL_SOFTWARE hdr then
    Some (set_flow d true true false false DTR_CONTROL_ENABLE RTS_CONTROL_ENABLE)
  else None.

(** The bit-time count of line 359:
    [1 + databits + stopbits + (parity ? 1 : 0)], in [unsigned int]. *)
Definition bit_times (databits parity stopbits : Z) : Z :=
  to_uint32 (1 + databits + stopbits + (if parity =? 0 then 0 else 1)).

Definition dc_serial_configure (device : dc_serial_t)
    (baudrate databits parity stopbits flowcontrol : Z)
  : prog (dc_status_t * dc_serial_t) :=
  s <- sys (GetCommState (hFile device)) ;;
  match s with
  | None => status <- last_error ;; Ret (status, device)
  | Some d =>
      let d := set_binary d baudrate in
      if negb ((5 <=? databits) && (databits <=? 8)) then
        Ret (DC_STATUS_INVALIDARGS, device)
      else
        match configure_parity parity (set_ByteSize d databits) with
        | None => Ret (DC_STATUS_INVALIDARGS, device)
        | Some d =>
        match configure_stopbits stopbits d with
        | None => Ret (DC_STATUS_INVALIDARGS, device)
        | Some d =>
        match configure_flowcontrol flowcontrol d with
        | None => Ret (DC_STATUS_INVALIDARGS, device)
        | Some d =>
            applied <- sys (SetCommState (hFile device) d) ;;
            if negb applied then
              status <- last_error ;; Ret (status, device)
            else
              Ret (DC_STATUS_SUCCESS,
                   set_baudrate_nbits device baudrate
                     (bit_times databits parity stopbits))
        end end end
  end.

End Serial.

(** ** [dc_serial_set_timeout] *)

Definition set_ReadIntervalTimeout (t : COMMTIMEOUTS) (v : Z) : COMMTIMEOUTS :=
  {| ReadIntervalTimeout := v;
     ReadTotalTimeoutMultiplier := ReadTotalTimeoutMultiplier t;
     ReadTotalTimeoutConstant := ReadTotalTimeoutConstant t;
     WriteTotalTimeoutMultiplier := WriteTotalTimeoutMultiplier t;
     WriteTotalTimeoutConstant := WriteTotalTimeoutConstant t |}.

Definition set_ReadTotalTimeoutMultiplier (t : COMMTIMEOUTS) (v : Z) : COMMTIMEOUTS :=
  {| ReadIntervalTimeout := ReadIntervalTimeout t;
     ReadTotalTimeoutMultiplier := v;
     ReadTotalTimeoutConstant := ReadTotalTimeoutConstant t;
     WriteTotalTimeoutMultiplier := WriteTotalTimeoutMultiplier t;
     WriteTotalTimeoutConstant := WriteTotalTimeoutConstant t |}.

Definition set_ReadTotalTimeoutConstant (t : COMMTIMEOUTS) (v : Z) : COMMTIMEOUTS :=
  {| ReadIntervalTimeout := ReadIntervalTimeout t;
     ReadTotalTimeoutMultiplier := ReadTotalTimeoutMultiplier t;
     ReadTotalTimeoutConstant := v;
     WriteTotalTimeoutMultiplier := WriteTotalTimeoutMultiplier t;
     WriteTotalTimeoutConstant := WriteTotalTimeoutConstant t |}.

Definition set_WriteTotalTimeoutMultiplier (t : COMMTIMEOUTS) (v : Z) : COMMTIMEOUTS :=
  {| ReadIntervalTimeout := ReadIntervalTimeout t;
     ReadTotalTimeoutMultiplier := ReadTotalTimeoutMultiplier t;
     ReadTotalTimeoutConstant := ReadTotalTimeoutConstant t;
     WriteTotalTimeoutMultiplier := v;
     WriteTotalTimeoutConstant := WriteTotalTimeoutConstant t |}.

Definition set_WriteTotalTimeoutConstant (t : COMMTIMEOUTS) (v : Z) : COMMTIMEOUTS :=
  {| ReadIntervalTimeout := ReadIntervalTimeout t;
     ReadTotalTimeoutMultiplier := ReadTotalTimeoutMultiplier t;
     ReadTotalTimeoutConstant := ReadTotalTimeoutConstant t;
     WriteTotalTimeoutMultiplier := WriteTotalTimeoutMultiplier t;
     WriteTotalTimeoutConstant := v |}.

(** The five assignments of a branch, on the structure retrieved from the
    system. *)
Definition assign_timeouts (t : COMMTIMEOUTS) (interval multiplier constant : Z)
  : COMMTIMEOUTS :=
  set_WriteTotalTimeoutConstant
    (set_WriteTotalTimeoutMultiplier
       (set_ReadTotalTimeoutConstant
          (set_ReadTotalTimeoutMultiplier
             (set_ReadIntervalTimeout t interval) multiplier) constant) 0) 0.

Definition update_timeouts (t : COMMTIMEOUTS) (timeout : Z) : COMMTIMEOUTS :=
  if timeout <? 0 then assign_timeouts t 0 0 0
  else if timeout =? 0 then assign_timeouts t MAXDWORD 0 0
  else assign_timeouts t 0 0 (to_uint32 timeout).

Definition dc_serial_set_timeout (device : dc_serial_t) (timeout : Z)
  : prog dc_status_t :=
  r <- sys (GetCommTimeouts (hFile device)) ;;
  match r with
  | None => last_error
  | Some t =>
      ok <- sys (SetCommTimeouts (hFile device) (update_timeouts t timeout)) ;;
      if negb ok then last_error else Ret DC_STATUS_SUCCESS
  end.

(** ** [dc_serial_set_halfduplex], [dc_serial_set_latency] *)

Definition dc_serial_set_halfduplex (device : dc_serial_t) (value : Z)
  : dc_status_t * dc_serial_t :=
  (DC_STATUS_SUCCESS, set_halfduplex device (to_int32 value)).

Definition dc_serial_set_latency (device : dc_serial_t) (value : Z) : dc_status_t :=
  DC_STATUS_SUCCESS.

(** ** [dc_serial_sleep] *)
Definition dc_serial_sleep (timeout : Z) : prog dc_status_t :=
  sys (Sleep timeout) ;;
  Ret DC_STATUS_SUCCESS.

(** ** [dc_serial_read]

    [size] is the requested number of bytes; [actual] tells whether the
    output pointer is non-null.  The second component of the result is the
    value stored through [actual], if any. *)
Definition dc_serial_read (device : dc_serial_t) (size : Z) (actual : bool)
  : prog (dc_status_t * option Z) :=
  let out (dwRead : DWORD) := if actual then Some dwRead else None in
  t <- sys (ReadFile (hFile device) (to_uint32 size)) ;;
  let dwRead := tr_count t in
  if negb (tr_ok t) then
    status <- last_error ;;
    Ret (status, out dwRead)
  else
    Ret (if negb (dwRead =? size) then DC_STATUS_TIMEOUT else DC_STATUS_SUCCESS,
         out dwRead).

(** ** [dc_serial_write] *)

(** [elapsed]: the time between the two counter readings, in microseconds:
    [1000000.0 * (end - begin) / freq + 0.5], converted to [unsigned long]. *)
Definition elapsed_us (freq begin end_ : Z) : option Z :=
  Double.to_ulong
    (Double.add
       (Double.div (Double.mul (Double.of_Z 1000000) (Double.of_Z (end_ - begin)))
                   (Double.of_Z freq))
       Double.half).

(** [expected]: the duration of the transmission, in microseconds:
    [1000000.0 * nbits / baudrate * size + 0.5 + 2000], converted to
    [unsigned long]. *)
Definition expected_us (nbits baudrate size : Z) : option Z :=
  Double.to_ulong
    (Double.add
       (Double.add
          (Double.mul
             (Double.div (Double.mul (Double.of_Z 1000000) (Double.of_Z nbits))
                         (Double.of_Z baudrate))
             (Double.of_Z size))
          Double.half)
       (Double.of_Z 2000)).

(** The argument of the sleep: [(remaining + 999) / 1000] in
    [unsigned long]. *)
Definition sleep_ms (remaining : Z) : Z := to_uint32 (remaining + 999) / 1000.

(** The first half-duplex block: both readings, or the status to leave
    with. *)
Definition start_clock : prog (dc_status_t + Z * Z) :=
  f <- sys QueryPerformanceFrequency ;;
  b <- match f with
       | Some _ => sys QueryPerformanceCounter
       | None => Ret None
       end ;;
  match f, b with
  | Some freq, Some begin => Ret (inr (freq, begin))
  | _, _ => status <- last_error ;; Ret (inl status)
  end.

(** The second half-duplex block, after a successful [WriteFile]: [Some] is
    the status to leave with, [None] lets the function go on. *)
Definition turnaround (device : dc_serial_t) (size freq begin : Z)
  : prog (option dc_status_t) :=
  e <- sys QueryPerformanceCounter ;;
  match e with
  | None => status <- last_error ;; Ret (Some status)
  | Some end_ =>
      match elapsed_us freq begin end_,
            expected_us (nbits device) (baudrate device) size with
      | Some elapsed, Some expected =>
          if elapsed <? expected then
            let remaining := expected - elapsed in
            dc_serial_sleep (sleep_ms remaining) ;;
            Ret None
          else Ret None
      | _, _ => Undefined
      end
  end.

(** The readings of the first block are [Some] exactly when the function
    found [device->halfduplex] set, which is what the second test of that
    member, unchanged in between, finds again. *)
Definition dc_serial_write (device : dc_serial_t) (size : Z) (actual : bool)
  : prog (dc_status_t * option Z) :=
  let out (dwWritten : DWORD) := if actual then Some dwWritten else None in
  c <- (if negb (halfduplex device =? 0) then
          r <- start_clock ;;
          match r with
          | inl status => Ret (inl status)
          | inr clock => Ret (inr (Some clock))
          end
        else Ret (inr None)) ;;
  match c with
  | inl status => Ret (status, out 0)
  | inr clock =>
      t <- sys (WriteFile (hFile device) (to_uint32 size)) ;;
      let dwWritten := tr_count t in
      if negb (tr_ok t) then
        status <- last_error ;;
        Ret (status, out dwWritten)
      else
        s <- match clock with
             | Some (freq, begin) => turnaround device size freq begin
             | None => Ret None
             end ;;
        match s with
        | Some status => Ret (status, out dwWritten)
        | None =>
            Ret (if negb (dwWritten =? size) then DC_STATUS_TIMEOUT
                 else DC_STATUS_SUCCESS,
                 out dwWritten)
        end
  end.

(** ** The remaining operations of the dispatch table *)

Section Lines.

Variable hdr : serial_h.

(** [None] is the [default] label of the switch. *)
Definition purge_flags (direction : Z) : option Z :=
  if direction =? DC_DIRECTION_INPUT hdr then
    Some (Z.lor PURGE_RXABORT PURGE_RXCLEAR)
  else if direction =? DC_DIRECTION_OUTPUT hdr then
    Some (Z.lor PURGE_TXABORT PURGE_TXCLEAR)
  else if direction =? DC_DIRECTION_ALL hdr then
    Some (Z.lor (Z.lor (Z.lor PURGE_RXABORT PURGE_RXCLEAR) PURGE_TXABORT)
                PURGE_TXCLEAR)
  else None.

Definition dc_serial_purge (device : dc_serial_t) (direction : Z)
  : prog dc_status_t :=
  match purge_flags direction with
  | None => Ret DC_STATUS_INVALIDARGS
  | Some flags =>
      ok <- sys (PurgeComm (hFile device) flags) ;;
      if negb ok then last_error else Ret DC_STATUS_SUCCESS
  end.

Definition line_flags (stats : Z) : Z :=
  let lines := 0 in
  let lines := if negb (Z.land stats MS_RLSD_ON =? 0)
               then Z.lor lines (DC_LINE_DCD hdr) else lines in
  let lines := if negb (Z.land stats MS_CTS_ON =? 0)
               then Z.lor lines (DC_LINE_CTS hdr) else lines in
  let lines := if negb (Z.land stats MS_DSR_ON =? 0)
               then Z.lor lines (DC_LINE_DSR hdr) else lines in
  let lines := if negb (Z.land stats MS_RING_ON =? 0)
               then Z.lor lines (DC_LINE_RNG hdr) else lines in
  lines.

Definition dc_serial_get_lines (device : dc_serial_t) (value : bool)
  : prog (dc_status_t * option Z) :=
  r <- sys (GetCommModemStatus (hFile device)) ;;
  match r with
  | None => status <- last_error ;; Ret (status, None)
  | Some stats =>
      Ret (DC_STATUS_SUCCESS, if value then Some (line_flags stats) else None)
  end.

End Lines.

Definition dc_serial_flush (device : dc_serial_t) : prog dc_status_t :=
  ok <- sys (FlushFileBuffers (hFile device)) ;;
  if negb ok then last_error else Ret DC_STATUS_SUCCESS.

Definition dc_serial_set_break (device : dc_serial_t) (level : Z)
  : prog dc_status_t :=
  ok <- (if negb (level =? 0) then sys (SetCommBreak (hFile device))
         else sys (ClearCommBreak (hFile device))) ;;
  if negb ok then last_error else Ret DC_STATUS_SUCCESS.

Definition dc_serial_set_dtr (device : dc_serial_t) (level : Z)
  : prog dc_status_t :=
  let status := if negb (level =? 0) then SETDTR else CLRDTR in
  ok <- sys (EscapeCommFunction (hFile device) status) ;;
  if negb ok then last_error else Ret DC_STATUS_SUCCESS.

Definition dc_serial_set_rts (device : dc_serial_t) (level : Z)
  : prog dc_status_t :=
  let status := if negb (level =? 0) then SETRTS else CLRRTS in
  ok <- sys (EscapeCommFunction (hFile device) status) ;;
  if negb ok then last_error else Ret DC_STATUS_SUCCESS.

Definition dc_serial_get_available (device : dc_serial_t) (value : bool)
  : prog (dc_status_t * option Z) :=
  r <- sys (ClearCommError (hFile device)) ;;
  match r with
  | None => status <- last_error ;; Ret (status, None)
  | Some cbInQue =>
      Ret (DC_STATUS_SUCCESS, if value then Some cbInQue else None)
  end.

(** ** Sessions

    The operations of [dc_serial_vtable] that a caller may apply to an open
    session, and their effect on the session state. *)
Inductive operation : Type :=
| vt_set_timeout (timeout : Z)
| vt_set_latency (value : Z)
| vt_set_halfduplex (value : Z)
| vt_set_break (level : Z)
| vt_set_dtr (level : Z)
| vt_set_rts (level : Z)
| vt_get_lines (value : bool)
| vt_get_received (value : bool)
| vt_configure (baudrate databits parity stopbits flowcontrol : Z)
| vt_read (size : Z) (actual : bool)
| vt_write (size : Z) (actual : bool)
| vt_flush
| vt_purge (direction : Z)
| vt_sleep (milliseconds : Z).

Definition keep (device : dc_serial_t) (p : prog dc_status_t)
  : prog (dc_status_t * dc_serial_t) :=
  status <- p ;; Ret (status, device).

Definition keep_fst {A : Type} (device : dc_serial_t) (p : prog (dc_status_t * A))
  : prog (dc_status_t * dc_serial_t) :=
  r <- p ;; Ret (fst r, device).

Definition perform (hdr : serial_h) (device : dc_serial_t) (op : operation)
  : prog (dc_status_t * dc_serial_t) :=
  match op with
  | vt_set_timeout timeout => keep device (dc_serial_set_timeout device timeout)
  | vt_set_latency value => Ret (dc_serial_set_latency device value, device)
  | vt_set_halfduplex value => Ret (dc_serial_set_halfduplex device value)
  | vt_set_break level => keep device (dc_serial_set_break device level)
  | vt_set_dtr level => keep device (dc_serial_set_dtr device level)
  | vt_set_rts level => keep device (dc_serial_set_rts device level)
  | vt_get_lines value => keep_fst device (dc_serial_get_lines hdr device value)
  | vt_get_received value => keep_fst device (dc_serial_get_available device value)
  | vt_configure baudrate databits parity stopbits flowcontrol =>
      dc_serial_configure hdr device baudrate databits parity stopbits flowcontrol
  | vt_read size actual => keep_fst device (dc_serial_read device size actual)
  | vt_write size actual => keep_fst device (dc_serial_write device size actual)
  | vt_flush => keep device (dc_serial_flush device)
  | vt_purge direction => keep device (dc_serial_purge hdr device direction)
  | vt_sleep milliseconds => keep device (dc_serial_sleep milliseconds)
  end.

(** A sequence of operations on one session: the statuses returned, in
    order, and the session state at the end. *)
Fixpoint session (hdr : serial_h) (device : dc_serial_t) (ops : list operation)
  : prog (list dc_status_t * dc_serial_t) :=
  match ops with
  | [] => Ret ([], device)
  | op :: ops' =>
      r <- perform hdr device op ;;
      rest <- session hdr (snd r) ops' ;;
      Ret (fst r :: fst rest, snd rest)
  end.

(** No operation of the sequence is a [configure] that returned success. *)
Fixpoint never_configured (ops : list operation) (statuses : list dc_status_t)
  : bool :=
  match ops, statuses with
  | vt_configure _ _ _ _ _ :: ops', status :: statuses' =>
      negb (dc_status_eqb status DC_STATUS_SUCCESS)
      && never_configured ops' statuses'
  | _ :: ops', _ :: statuses' => never_configured ops' statuses'
  | _, _ => true
  end.

(** ** Reading a trace *)

(** Whether the system reported success: a BOOL that is TRUE, a valid
    handle, a return code that is ERROR_SUCCESS.  Calls that cannot fail
    count as succeeded. *)
Definition is_some {A : Type} (o : option A) : bool :=
  match o with Some _ => true | None => false end.

Definition succeeded (e : io) : bool :=
  match e with
  | IO dc_iostream_allocate a => a
  | IO (CreateFileA _) a => is_some a
  | IO (CloseHandle _) a => a
  | IO (GetCommState _) a => is_some a
  | IO (SetCommState _ _) a => a
  | IO (GetCommTimeouts _) a => is_some a
  | IO (SetCommTimeouts _ _) a => a
  | IO (ReadFile _ _) a => tr_ok a
  | IO (WriteFile _ _) a => tr_ok a
  | IO QueryPerformanceFrequency a => is_some a
  | IO QueryPerformanceCounter a => is_some a
  | IO (PurgeComm _ _) a => a
  | IO (FlushFileBuffers _) a => a
  | IO (SetCommBreak _) a => a
  | IO (ClearCommBreak _) a => a
  | IO (EscapeCommFunction _ _) a => a
  | IO (ClearCommError _) a => is_some a
  | IO (GetCommModemStatus _) a => is_some a
  | IO RegOpenKeyExA a => fst a =? ERROR_SUCCESS
  | IO (RegQueryInfoKey _) a => fst a =? ERROR_SUCCESS
  | IO (RegEnumValueA _ _) a => rv_rc a =? ERROR_SUCCESS
  | IO _ _ => true
  end.

(** The calls of a trace that failed. *)
Definition failures (t : list io) : list call :=
  map io_call (filter (fun e => negb (succeeded e)) t).

(** The error codes [GetLastError] returned, in order. *)
Fixpoint error_codes (t : list io) : list DWORD :=
  match t with
  | [] => []
  | IO GetLastError e :: t' => e :: error_codes t'
  | _ :: t' => error_codes t'
  end.

(** The byte counter after the transfers of a trace, from its value [n]
    before them. *)
Fixpoint counter_after (n : DWORD) (t : list io) : DWORD :=
  match t with
  | [] => n
  | IO (ReadFile _ _) a :: t' | IO (WriteFile _ _) a :: t' =>
      counter_after (tr_count a) t'
  | _ :: t' => counter_after n t'
  end.

(** [dwRead] and [dwWritten] start at 0. *)
Definition transferred (t : list io) : DWORD := counter_after 0 t.

(** The arguments of the sleeps of a trace. *)
Fixpoint sleeps (t : list call) : list Z :=
  match t with
  | [] => []
  | Sleep ms :: t' => ms :: sleeps t'
  | _ :: t' => sleeps t'
  end.

(** The strings handed to the enumeration callback, in order. *)
Fixpoint callbacks (t : list call) : list string :=
  match t with
  | [] => []
  | callback data _ :: t' => data :: callbacks t'
  | _ :: t' => callbacks t'
  end.

(** The values [RegEnumValueA] answered, in order, and the indices it was
    asked for. *)
Fixpoint enumerated (t : list io) : list reg_value :=
  match t with
  | [] => []
  | IO (RegEnumValueA _ _) v :: t' => v :: enumerated t'
  | _ :: t' => enumerated t'
  end.

Fixpoint indices (t : list call) : list Z :=
  match t with
  | [] => []
  | RegEnumValueA _ i :: t' => i :: indices t'
  | _ :: t' => indices t'
  end.

(** ** Models of the system

    [steady f] answers every call by [f], whatever happened before;
    [scripted f] lets the answer depend on the number of calls made so
    far. *)
Definition steady (f : forall c : call, answer c) : os unit :=
  {| respond := fun c w => (f c, w) |}.

Definition scripted (f : nat -> forall c : call, answer c) : os nat :=
  {| respond := fun c n => (f n c, S n) |}.

Definition driver_dcb : DCB :=
  {| BaudRate := 1200; fBinary := true; fParity := false;
     fOutxCtsFlow := false; fOutxDsrFlow := false; fDtrControl := 0;
     fOutX := false; fInX := false; fRtsControl := 0; fAbortOnError := true;
     ByteSize := 7; Parity := 0; StopBits := 0; dcb_other := 0 |}.

Definition driver_timeouts : COMMTIMEOUTS :=
  {| ReadIntervalTimeout := 10; ReadTotalTimeoutMultiplier := 20;
     ReadTotalTimeoutConstant := 30; WriteTotalTimeoutMultiplier := 40;
     WriteTotalTimeoutConstant := 50 |}.

Definition nul_terminated (s : string) : string := s ++ String zero EmptyString.

Definition ERROR_NO_MORE_ITEMS : Z := 259.
Definition REG_DWORD : Z := 4.

(** A registry key with four values: three strings and one number. *)
Definition four_values (index : Z) : reg_value :=
  if index =? 0 then
    {| rv_rc := ERROR_SUCCESS; rv_type := REG_SZ; rv_data := nul_terminated "COM1" |}
  else if index =? 1 then
    {| rv_rc := ERROR_SUCCESS; rv_type := REG_DWORD; rv_data := "abcd" |}
  else if index =? 2 then
    {| rv_rc := ERROR_SUCCESS; rv_type := REG_SZ; rv_data := nul_terminated "COM3" |}
  else if index =? 3 then
    {| rv_rc := ERROR_SUCCESS; rv_type := REG_SZ; rv_data := nul_terminated "COM4" |}
  else
    {| rv_rc := ERROR_NO_MORE_ITEMS; rv_type := 0; rv_data := EmptyString |}.

(** A system on which every call succeeds: transfers are complete, the
    performance counter runs at 1 MHz and stands at 0. *)
Definition healthy (c : call) : answer c :=
  match c with
  | GetLastError => ERROR_SUCCESS
  | SYSERROR _ | INFO _ | dc_iostream_deallocate | Sleep _
  | RegCloseKey _ | callback _ _ => tt
  | dc_iostream_allocate => true
  | CreateFileA _ => Some 1
  | CloseHandle _ | SetCommState _ _ | SetCommTimeouts _ _
  | PurgeComm _ _ | FlushFileBuffers _ | SetCommBreak _ | ClearCommBreak _
  | EscapeCommFunction _ _ => true
  | GetCommState _ => Some driver_dcb
  | GetCommTimeouts _ => Some driver_timeouts
  | ReadFile _ n | WriteFile _ n => {| tr_ok := true; tr_count := n |}
  | QueryPerformanceFrequency => Some 1000000
  | QueryPerformanceCounter => Some 0
  | ClearCommError _ => Some 0
  | GetCommModemStatus _ => Some 0
  | RegOpenKeyExA => (ERROR_SUCCESS, 7)
  | RegQueryInfoKey _ => (ERROR_SUCCESS, 4)
  | RegEnumValueA _ i => four_values i
  end.

(** A system on which every call that can fail does, with the last error
    ERROR_ACCESS_DENIED. *)
Definition failing (c : call) : answer c :=
  match c with
  | GetLastError => ERROR_ACCESS_DENIED
  | SYSERROR _ | INFO _ | dc_iostream_deallocate | Sleep _
  | RegCloseKey _ | callback _ _ => tt
  | dc_iostream_allocate => false
  | CreateFileA _ => None
  | CloseHandle _ | SetCommState _ _ | SetCommTimeouts _ _
  | PurgeComm _ _ | FlushFileBuffers _ | SetCommBreak _ | ClearCommBreak _
  | EscapeCommFunction _ _ => false
  | GetCommState _ => None
  | GetCommTimeouts _ => None
  | ReadFile _ _ | WriteFile _ _ => {| tr_ok := false; tr_count := 0 |}
  | QueryPerformanceFrequency => None
  | QueryPerformanceCounter => None
  | ClearCommError _ => None
  | GetCommModemStatus _ => None
  | RegOpenKeyExA => (ERROR_ACCESS_DENIED, 0)
  | RegQueryInfoKey _ => (ERROR_ACCESS_DENIED, 0)
  | RegEnumValueA _ _ =>
      {| rv_rc := ERROR_ACCESS_DENIED; rv_type := 0; rv_data := EmptyString |}
  end.

(** A system that works for the first [n] calls and fails from then on. *)
Definition failing_after (n : nat) : os nat :=
  scripted (fun k c => if (k <? n)%nat then healthy c else failing c).

(** A system without the registry key of the serial devices. *)
Definition no_serialcomm : os unit :=
  steady (fun c =>
    match c with
    | RegOpenKeyExA => (ERROR_FILE_NOT_FOUND, 0)
    | c => healthy c
    end).

(** A transfer that stops after two bytes. *)
Definition short_transfer : os unit :=
  steady (fun c =>
    match c with
    | ReadFile _ _ | WriteFile _ _ => {| tr_ok := true; tr_count := 2 |}
    | c => healthy c
    end).

(** The session a successful open yields on [healthy]. *)
Definition fresh_session : dc_serial_t :=
  {| hFile := 1; dcb := driver_dcb; timeouts := driver_timeouts;
     halfduplex := 0; baudrate := 0; nbits := 0 |}.

(** A half-duplex session at 9600 baud with ten bit-times per byte. *)
Definition half_duplex_session : dc_serial_t :=
  {| hFile := 1; dcb := driver_dcb; timeouts := driver_timeouts;
     halfduplex := 1; baudrate := 9600; nbits := 10 |}.

(** A port that remembers the timeouts it was last given. *)
Definition remembering : os COMMTIMEOUTS :=
  {| respond := fun c =>
       match c return COMMTIMEOUTS -> answer c * COMMTIMEOUTS with
       | GetCommTimeouts _ => fun t => (Some t, t)
       | SetCommTimeouts _ t' => fun _ => (true, t')
       | c => fun t => (healthy c, t)
       end |}.

(** The timeouts handed to [SetCommTimeouts], in order. *)
Fixpoint timeouts_set (t : list call) : list COMMTIMEOUTS :=
  match t with
  | [] => []
  | SetCommTimeouts _ v :: t' => v :: timeouts_set t'
  | _ :: t' => timeouts_set t'
  end.

(** The values the performance counter and its frequency were read as, in
    order. *)
Fixpoint readings (t : list io) : list Z :=
  match t with
  | [] => []
  | IO QueryPerformanceFrequency (Some v) :: t'
  | IO QueryPerformanceCounter (Some v) :: t' => v :: readings t'
  | _ :: t' => readings t'
  end.

(** ** Reading the values of the registry key *)

Definition readable (v : reg_value) : bool := rv_rc v =? ERROR_SUCCESS.
Definition is_string (v : reg_value) : bool := rv_type v =? REG_SZ.
Definition fits (v : reg_value) : bool :=
  Z.of_nat (String.length (rv_data v)) <? sizeof_data.

(** A value the enumeration gets past: it was read, and it is not a
    string or its data leave room for the terminating NUL. *)
Definition acceptable (v : reg_value) : bool :=
  readable v && (negb (is_string v) || fits v).

(** The status a value that is not acceptable ends the enumeration with. *)
Definition verdict (v : reg_value) : dc_status_t :=
  if readable v then DC_STATUS_NOMEMORY else DC_STATUS_IO.

(** One name per string-typed value: its data, read as a C string. *)
Definition port_names (values : list reg_value) : list string :=
  map (fun v => c_string (rv_data v)) (filter is_string values).

(** Whether a read or a write was handed to the system. *)
Definition is_transfer (c : call) : bool :=
  match c with
  | ReadFile _ _ | WriteFile _ _ => true
  | _ => false
  end.

(** The whole number of milliseconds that covers [remaining]
    microseconds. *)
Definition round_up_ms (remaining : Z) : Z := (remaining + 999) / 1000.

(** A session configured for seven data bits and two stop bits at 10000
    baud, switched to half-duplex, that writes 4294965 bytes. *)
Definition long_write : list operation :=
  [vt_configure 10000 7 (DC_PARITY_NONE c_numbering) (DC_STOPBITS_TWO c_numbering)
     (DC_FLOWCONTROL_NONE c_numbering);
   vt_set_halfduplex 1;
   vt_write 4294965 true].

(** What a caller does to a fresh session without configuring the line:
    a timeout, then half-duplex. *)
Definition unconfigured : list operation :=
  [vt_set_timeout 100; vt_set_halfduplex 1].

(** The settings for 9600 baud, eight data bits, no parity, one stop bit
    and hardware flow control, on top of [driver_dcb]. *)
Definition hardware_8N1 : DCB :=
  {| BaudRate := 9600; fBinary := true; fParity := false;
     fOutxCtsFlow := true; fOutxDsrFlow := true;
     fDtrControl := DTR_CONTROL_HANDSHAKE;
     fOutX := false; fInX := false; fRtsControl := RTS_CONTROL_HANDSHAKE;
     fAbortOnError := false;
     ByteSize := 8; Parity := NOPARITY; StopBits := ONESTOPBIT; dcb_other := 0 |}.

(** A port on which every call fails, the settings being refused as an
    invalid parameter and everything later for lack of access. *)
Definition refusing : os nat :=
  scripted (fun k c =>
    match c with
    | GetLastError =>
        if (k <? 3)%nat then ERROR_INVALID_PARAMETER else ERROR_ACCESS_DENIED
    | c => failing c
    end).

(** ** The expected duration in exact arithmetic *)

(** [1000000 * nbits * size / baudrate] rounded to the nearest integer
    (halves up), plus the margin of 2000 microseconds. *)
Definition nearest_us (nbits baudrate size : Z) : Z :=
  (2 * 1000000 * nbits * size + baudrate) / (2 * baudrate) + 2000.

(** Usual line settings: baud rates, bit-times per byte, and the sizes
    from 1 to 64 bytes. *)
Definition usual_rates : list Z :=
  [300; 600; 1200; 2400; 4800; 9600; 14400; 19200; 38400; 57600; 115200].

Definition usual_frames : list Z := [7; 8; 9; 10; 11; 12].

Definition usual_settings : list (Z * Z * Z) :=
  flat_map (fun b =>
    flat_map (fun n => map (fun s => (n, b, Z.of_nat s)) (seq 1 64)) usual_frames)
    usual_rates.

Definition within_one_us (p : Z * Z * Z) : bool :=
  let '(n, b, s) := p in
  match expected_us n b s with
  | Some x => Z.abs (x - nearest_us n b s) <=? 1
  | None => false
  end.

(** ** Further readings of a trace *)

(** The handle a call is made on, for the calls that take one. *)
Definition handle_of (c : call) : option HANDLE :=
  match c with
  | CloseHandle h | GetCommState h | SetCommState h _ | GetCommTimeouts h
  | SetCommTimeouts h _ | ReadFile h _ | WriteFile h _ | PurgeComm h _
  | FlushFileBuffers h | SetCommBreak h | ClearCommBreak h
  | EscapeCommFunction h _ | ClearCommError h | GetCommModemStatus h => Some h
  | _ => None
  end.

(** What an operation on an open session may call: the diagnostics, the
    performance counter, the sleep, and the communication functions on the
    handle [h], short of closing it. *)
Definition confined (h : HANDLE) (c : call) : bool :=
  match c with
  | GetLastError | SYSERROR _ | QueryPerformanceFrequency
  | QueryPerformanceCounter | Sleep _ => true
  | CloseHandle _ => false
  | c => match handle_of c with
         | Some h' => h' =? h
         | None => false
         end
  end.

(** The handles [CreateFileA] returned and the handles given to
    [CloseHandle], in order. *)
Fixpoint handles_opened (t : list io) : list HANDLE :=
  match t with
  | [] => []
  | IO (CreateFileA _) (Some h) :: t' => h :: handles_opened t'
  | _ :: t' => handles_opened t'
  end.

Fixpoint handles_closed (t : list call) : list HANDLE :=
  match t with
  | [] => []
  | CloseHandle h :: t' => h :: handles_closed t'
  | _ :: t' => handles_closed t'
  end.

(** The paths given to [CreateFileA]. *)
Fixpoint paths_opened (t : list call) : list string :=
  match t with
  | [] => []
  | CreateFileA devname :: t' => devname :: paths_opened t'
  | _ :: t' => paths_opened t'
  end.

(** The number of streams allocated and of streams deallocated. *)
Fixpoint allocations (t : list io) : nat :=
  match t with
  | [] => O
  | IO dc_iostream_allocate true :: t' => S (allocations t')
  | _ :: t' => allocations t'
  end.

Fixpoint deallocations (t : list call) : nat :=
  match t with
  | [] => O
  | dc_iostream_deallocate :: t' => S (deallocations t')
  | _ :: t' => deallocations t'
  end.

(** A string without NUL. *)
Fixpoint no_nul (s : string) : bool :=
  match s with
  | EmptyString => true
  | String c s' => negb (Ascii.eqb c zero) && no_nul s'
  end.

(** What the loop of [dc_serial_enumerate] may call before it closes the
    key [hKey]: [RegEnumValueA] on that key, and the callback with the
    caller's [userdata] and a string that fits the buffer of 512 bytes with
    its terminator. *)
Definition enumeration_step (hKey : HKEY) (userdata : Z) (c : call) : bool :=
  match c with
  | RegEnumValueA k _ => k =? hKey
  | callback data u =>
      (u =? userdata) && (Z.of_nat (String.length data) <? sizeof_data)
      && no_nul data
  | _ => false
  end.

(** A port that stores the settings and the timeouts it is given and
    hands them back when asked; every call on it succeeds. *)
Record port_state : Type := {
  port_dcb : DCB;
  port_timeouts : COMMTIMEOUTS
}.

Definition port : os port_state :=
  {| respond := fun c =>
       match c return port_state -> answer c * port_state with
       | GetCommState _ => fun s => (Some (port_dcb s), s)
       | SetCommState _ d =>
           fun s => (true, {| port_dcb := d; port_timeouts := port_timeouts s |})
       | GetCommTimeouts _ => fun s => (Some (port_timeouts s), s)
       | SetCommTimeouts _ t =>
           fun s => (true, {| port_dcb := port_dcb s; port_timeouts := t |})
       | c => fun s => (healthy c, s)
       end |}.

(** A day in the life of a port: line settings, a timeout, half-duplex, a
    write and a read. *)
Definition busy_day : list operation :=
  [vt_configure 9600 8 (DC_PARITY_NONE c_numbering) (DC_STOPBITS_ONE c_numbering)
     (DC_FLOWCONTROL_NONE c_numbering);
   vt_set_timeout 1000; vt_set_halfduplex 1; vt_write 4 true; vt_read 8 true].


(** The port before anybody opened it, and the session at the end of the
    busy day. *)
Definition port_at_rest : port_state :=
  {| port_dcb := driver_dcb; port_timeouts := driver_timeouts |}.

Definition after_busy_day : dc_serial_t :=
  {| hFile := 1; dcb := driver_dcb; timeouts := driver_timeouts;
     halfduplex := 1; baudrate := 9600; nbits := 9 |}.

(** The arguments [dc_serial_configure] has a case for. *)
Definition known_parity (hdr : serial_h) (parity : Z) : bool :=
  existsb (Z.eqb parity)
    [DC_PARITY_NONE hdr; DC_PARITY_EVEN hdr; DC_PARITY_ODD hdr;
     DC_PARITY_MARK hdr; DC_PARITY_SPACE hdr].

Definition known_stopbits (hdr : serial_h) (stopbits : Z) : bool :=
  existsb (Z.eqb stopbits)
    [DC_STOPBITS_ONE hdr; DC_STOPBITS_ONEPOINTFIVE hdr; DC_STOPBITS_TWO hdr].

Definition known_flowcontrol (hdr : serial_h) (flowcontrol : Z) : bool :=
  existsb (Z.eqb flowcontrol)
    [DC_FLOWCONTROL_NONE hdr; DC_FLOWCONTROL_HARDWARE hdr;
     DC_FLOWCONTROL_SOFTWARE hdr].

Definition valid_line (hdr : serial_h) (databits parity stopbits flowcontrol : Z)
  : bool :=
  (5 <=? databits) && (databits <=? 8) && known_parity hdr parity
  && known_stopbits hdr stopbits && known_flowcontrol hdr flowcontrol.

(** The modem status the system reported, and a system that reports
    [stats]. *)
Fixpoint modem_status (t : list io) : option DWORD :=
  match t with
  | [] => None
  | IO (GetCommModemStatus _) a :: _ => a
  | _ :: t' => modem_status t'
  end.

Definition modem_lines (stats : DWORD) (c : call) : answer c :=
  match c return answer c with
  | GetCommModemStatus _ => Some stats
  | c => healthy c
  end.

(** ** The format of the floating-point evaluation

    The operands of lines 488 and 492 have type [double], but C leaves to
    the compiler the format in which the operations are evaluated
    ([FLT_EVAL_METHOD]): [double] itself, as with SSE2 and on 64-bit
    builds, or the registers of the x87 unit on 32-bit builds, with the
    significand of 64 bits or, under the precision control that the
    Microsoft runtime sets, of 53 bits.  Neither expression is stored in a
    [double] before it is converted to [unsigned long]. *)
Record format : Type := { significand : Z; exponent_max : Z }.

Definition binary64 : format := {| significand := 53; exponent_max := 1024 |}.
Definition x87_extended : format := {| significand := 64; exponent_max := 16384 |}.
Definition x87_precision_53 : format :=
  {| significand := 53; exponent_max := 16384 |}.

Definition evaluation_formats : list format :=
  [binary64; x87_precision_53; x87_extended].

Module Float.

Definition of_Z (f : format) (z : Z) : spec_float :=
  binary_normalize (significand f) (exponent_max f) z 0 false.

Definition mul (f : format) (x y : spec_float) : spec_float :=
  SFmul (significand f) (exponent_max f) x y.
Definition div (f : format) (x y : spec_float) : spec_float :=
  SFdiv (significand f) (exponent_max f) x y.
Definition add (f : format) (x y : spec_float) : spec_float :=
  SFadd (significand f) (exponent_max f) x y.

Definition half (f : format) : spec_float :=
  binary_normalize (significand f) (exponent_max f) 1 (-1) false.

End Float.

(** Lines 488 and 492 evaluated in the format [f]; [elapsed_us] and
    [expected_us] are the instances at [binary64]. *)
Definition elapsed_us_in (f : format) (freq begin end_ : Z) : option Z :=
  Double.to_ulong
    (Float.add f
       (Float.div f (Float.mul f (Float.of_Z f 1000000) (Float.of_Z f (end_ - begin)))
                  (Float.of_Z f freq))
       (Float.half f)).

Definition expected_us_in (f : format) (nbits baudrate size : Z) : option Z :=
  Double.to_ulong
    (Float.add f
       (Float.add f
          (Float.mul f
             (Float.div f (Float.mul f (Float.of_Z f 1000000) (Float.of_Z f nbits))
                        (Float.of_Z f baudrate))
             (Float.of_Z f size))
          (Float.half f))
       (Float.of_Z f 2000)).

Definition within_one_us_in (f : format) (p : Z * Z * Z) : bool :=
  let '(n, b, s) := p in
  match expected_us_in f n b s with
  | Some x => Z.abs (x - nearest_us n b s) <=? 1
  | None => false
  end.

(** The diagnostics that follow a failed call. *)
Definition diagnostic (c : call) : bool :=
  match c with
  | GetLastError | SYSERROR _ => true
  | _ => false
  end.

(** The calls of a list apart from the diagnostics. *)
Definition system_calls (t : list call) : list call :=
  filter (fun c => negb (diagnostic c)) t.

(** * Properties *)

(** ** Running sequenced programs *)

Lemma run_bind {W A B : Type} (m : os W) (p : prog A) (f : A -> prog B) (w : W) :
  run m (bind p f) w =
  match result (run m p w) with
  | Some a =>
      let o := run m (f a) (world (run m p w)) in
      {| trace := trace (run m p w) ++ trace o;
         result := result o; world := world o |}
  | None =>
      {| trace := trace (run m p w); result := None;
         world := world (run m p w) |}
  end.
Proof.
  revert w; induction p as [a | | c k IH]; intro w; cbn.
  - now destruct (run m (f a) w).
  - reflexivity.
  - destruct (respond m c w) as [a w1]; cbn.
    rewrite IH. destruct (run m (k a) w1) as [t [r |] w2]; cbn; [| reflexivity].
    now destruct (run m (f r) w2).
Qed.

Lemma syserror_not_success (e : DWORD) : syserror e <> DC_STATUS_SUCCESS.
Proof.
  unfold syserror.
  repeat match goal with |- context [if ?b then _ else _] => destruct b end;
    discriminate.
Qed.

(** ** The translation of native error codes *)

(** C7.  [syserror] is a total function on error codes: the four codes of
    its table map to invalid-arguments, out-of-memory, no-device and
    no-access, and every other code maps to the generic I/O failure. *)
Theorem syserror_table :
  syserror ERROR_INVALID_PARAMETER = DC_STATUS_INVALIDARGS /\
  syserror ERROR_OUTOFMEMORY = DC_STATUS_NOMEMORY /\
  syserror ERROR_FILE_NOT_FOUND = DC_STATUS_NODEVICE /\
  syserror ERROR_ACCESS_DENIED = DC_STATUS_NOACCESS /\
  forall errcode : DWORD,
    errcode = ERROR_INVALID_PARAMETER \/ errcode = ERROR_OUTOFMEMORY \/
    errcode = ERROR_FILE_NOT_FOUND \/ errcode = ERROR_ACCESS_DENIED \/
    syserror errcode = DC_STATUS_IO.
Proof.
  repeat split.
  intro errcode; unfold syserror.
  destruct (Z.eqb_spec errcode ERROR_INVALID_PARAMETER); [now left |].
  destruct (Z.eqb_spec errcode ERROR_OUTOFMEMORY); [now right; left |].
  destruct (Z.eqb_spec errcode ERROR_FILE_NOT_FOUND); [now right; right; left |].
  destruct (Z.eqb_spec errcode ERROR_ACCESS_DENIED); [now right; right; right; left |].
  now right; right; right; right.
Qed.

(** ** Tactics for runs against an arbitrary system *)

(** Split an answer into the cases the programs distinguish. *)
Ltac split_answer a :=
  lazymatch type of a with
  | bool => destruct a
  | unit => destruct a
  | option _ => destruct a
  | transfer =>
      let ok := fresh "ok" in
      let count := fresh "count" in
      destruct a as [ok count]; destruct ok
  | (_ * _)%type => destruct a
  | _ => idtac
  end.

(** Name the answer of the system to the next call of the run. *)
Ltac ask :=
  cbn -[Z.eqb Z.ltb Z.leb];
  match goal with
  | |- context [respond ?m ?c ?w] =>
      let a := fresh "a" in
      let w' := fresh "w" in
      destruct (respond m c w) as [a w'] eqn:?; cbn in a; split_answer a;
      cbn -[Z.eqb Z.ltb Z.leb]
  end.

(** ** Closing a session *)

Lemma set_error_keeps_first (e : DWORD) (s : dc_status_t) :
  dc_status_set_error (syserror e) s = syserror e.
Proof.
  destruct (syserror e) eqn:E; try reflexivity.
  now apply syserror_not_success in E.
Qed.

Lemma syserror_success_iff (e : DWORD) (P : Prop) :
  ~ P -> (Some (syserror e) = Some DC_STATUS_SUCCESS <-> P).
Proof.
  intro HP; split; [| tauto].
  intro E; injection E as E; now apply syserror_not_success in E.
Qed.

(** C5.  Whatever the system answers, [dc_serial_close] first tries to put
    back the settings saved at open, and the saved timeouts once the
    settings went in; it then releases the handle, exactly once and as its
    last call to the system, whether or not the restoration failed.  Every
    failed call has its error code fetched, and the status returned is
    success when no call failed and the translation of the first error
    code otherwise. *)
Theorem dc_serial_close_restores_then_releases
    {W : Type} (m : os W) (w : W) (device : dc_serial_t) :
  let o := run m (dc_serial_close device) w in
  let h := hFile device in
  (system_calls (calls o) =
     [SetCommState h (dcb device); SetCommTimeouts h (timeouts device);
      CloseHandle h] \/
   system_calls (calls o) = [SetCommState h (dcb device); CloseHandle h] /\
   In (SetCommState h (dcb device)) (failures (trace o))) /\
  result o = Some (hd DC_STATUS_SUCCESS (map syserror (error_codes (trace o)))) /\
  (result o = Some DC_STATUS_SUCCESS <-> failures (trace o) = []) /\
  List.length (error_codes (trace o)) = List.length (failures (trace o)).
Proof.
  intros o h; subst o h.
  unfold dc_serial_close, last_error.
  repeat ask; unfold calls, failures; cbn;
    rewrite ?set_error_keeps_first;
    (split; [auto |
     split; [reflexivity |
     split; [first [tauto | apply syserror_success_iff; discriminate] |
             reflexivity]]]).
Qed.

(** Both steps fail, with different error codes: the handle is released
    after the failed restoration, and the status is that of the first
    error. *)
Example close_reports_first_error :
  let o := run refusing (dc_serial_close fresh_session) 0%nat in
  calls o = [SetCommState 1 driver_dcb; GetLastError;
             SYSERROR ERROR_INVALID_PARAMETER; CloseHandle 1; GetLastError;
             SYSERROR ERROR_ACCESS_DENIED] /\
  result o = Some DC_STATUS_INVALIDARGS.
Proof. vm_compute. split; reflexivity. Qed.

(** ** Configuring the line *)

Arguments configure_parity : simpl never.
Arguments configure_stopbits : simpl never.
Arguments configure_flowcontrol : simpl never.
Arguments bit_times : simpl never.
Arguments set_binary : simpl never.
Arguments set_ByteSize : simpl never.

(** C2, refuted as stated: with nine data bits on a port whose settings
    cannot be retrieved, the status is the translation of the system's
    error (here no-access) and not invalid-arguments. *)
Lemma configure_nine_databits_unreadable_port :
  ~ (5 <= 9 <= 8) /\
  result (run (steady failing)
            (dc_serial_configure c_numbering fresh_session 9600 9 0 0 0) tt)
  = Some (DC_STATUS_NOACCESS, fresh_session) /\
  DC_STATUS_NOACCESS <> DC_STATUS_INVALIDARGS.
Proof.
  split; [lia |]. split; [reflexivity | discriminate].
Qed.

(** C2, amended.  With [databits] outside 5..8, [dc_serial_configure]
    fails and changes nothing: [SetCommState] is not called and the session
    state, with its baud rate and bit-time count, is returned as it was.
    The status is invalid-arguments whenever the current settings could be
    retrieved, and the translation of the system's error code when that
    retrieval failed. *)
Theorem dc_serial_configure_rejects_databits
    {W : Type} (hdr : serial_h) (m : os W) (w : W) (device : dc_serial_t)
    (baudrate databits parity stopbits flowcontrol : Z) :
  ~ (5 <= databits <= 8) ->
  let o := run m (dc_serial_configure hdr device baudrate databits parity
                    stopbits flowcontrol) w in
  system_calls (calls o) = [GetCommState (hFile device)] /\
  (exists status,
     result o = Some (status, device) /\ status <> DC_STATUS_SUCCESS) /\
  (failures (trace o) = [] ->
   result o = Some (DC_STATUS_INVALIDARGS, device)) /\
  (failures (trace o) <> [] ->
   result o = Some (hd DC_STATUS_SUCCESS (map syserror (error_codes (trace o))),
                    device)).
Proof.
  intros Hbits o; subst o.
  assert (E : (5 <=? databits) && (databits <=? 8) = false).
  { apply andb_false_iff.
    destruct (Z.leb_spec 5 databits); [right | now left].
    apply Z.leb_gt; lia. }
  unfold dc_serial_configure, last_error.
  ask.
  - rewrite E; cbn. unfold calls, failures; cbn.
    repeat split; try tauto.
    exists DC_STATUS_INVALIDARGS; split; [reflexivity | discriminate].
  - repeat ask. unfold calls, failures; cbn.
    repeat split; try discriminate.
    exists (syserror a); split; [reflexivity | apply syserror_not_success].
Qed.

Lemma dc_serial_configure_rejects_databits_witness :
  ~ (5 <= 9 <= 8) /\
  system_calls
    (calls (run (steady healthy)
              (dc_serial_configure c_numbering half_duplex_session 19200 9 0 0 0)
              tt))
  = [GetCommState 1] /\
  result (run (steady healthy)
            (dc_serial_configure c_numbering half_duplex_session 19200 9 0 0 0)
            tt)
  = Some (DC_STATUS_INVALIDARGS, half_duplex_session).
Proof.
  assert (H : ~ (5 <= 9 <= 8)) by lia.
  split; [exact H |].
  destruct (dc_serial_configure_rejects_databits c_numbering (steady healthy) tt
              half_duplex_session 19200 9 0 0 0 H) as (Hcalls & _ & Hok & _).
  split; [exact Hcalls | apply Hok; reflexivity].
Defined.

(** On success the session records the baud rate as given and the
    bit-time count of line 359, in which [stopbits] is the integer value of
    the enumerator that was passed; the arguments then are all valid. *)
Lemma dc_serial_configure_success
    {W : Type} (hdr : serial_h) (m : os W) (w : W) (device device' : dc_serial_t)
    (baudrate databits parity stopbits flowcontrol : Z) :
  result (run m (dc_serial_configure hdr device baudrate databits parity
                   stopbits flowcontrol) w) = Some (DC_STATUS_SUCCESS, device') ->
  device' = set_baudrate_nbits device baudrate
              (to_uint32 (1 + databits + stopbits + (if parity =? 0 then 0 else 1)))
  /\ 5 <= databits <= 8
  /\ (parity = DC_PARITY_NONE hdr \/ parity = DC_PARITY_EVEN hdr \/
      parity = DC_PARITY_ODD hdr \/ parity = DC_PARITY_MARK hdr \/
      parity = DC_PARITY_SPACE hdr)
  /\ (stopbits = DC_STOPBITS_ONE hdr \/ stopbits = DC_STOPBITS_ONEPOINTFIVE hdr \/
      stopbits = DC_STOPBITS_TWO hdr)
  /\ (flowcontrol = DC_FLOWCONTROL_NONE hdr \/
      flowcontrol = DC_FLOWCONTROL_HARDWARE hdr \/
      flowcontrol = DC_FLOWCONTROL_SOFTWARE hdr).
Proof.
  unfold dc_serial_configure, last_error.
  ask.
  2: { repeat ask. intro E; injection E as E _.
       now apply syserror_not_success in E. }
  destruct ((5 <=? databits) && (databits <=? 8)) eqn:Hbits; cbn; [| discriminate].
  destruct (configure_parity hdr parity _) as [d1 |] eqn:Hp; cbn; [| discriminate].
  destruct (configure_stopbits hdr stopbits d1) as [d2 |] eqn:Hs; cbn; [| discriminate].
  destruct (configure_flowcontrol hdr flowcontrol d2) as [d3 |] eqn:Hf; cbn;
    [| discriminate].
  ask.
  2: { repeat ask. intro E; injection E as E _.
       now apply syserror_not_success in E. }
  intro E; injection E as <-.
  split; [reflexivity |].
  split; [apply andb_true_iff in Hbits; lia |].
  unfold configure_parity, configure_stopbits, configure_flowcontrol in *.
  repeat split.
  - repeat match type of Hp with
           | context [?a =? ?b] => destruct (Z.eqb_spec a b); [tauto |]
           end; discriminate.
  - repeat match type of Hs with
           | context [?a =? ?b] => destruct (Z.eqb_spec a b); [tauto |]
           end; discriminate.
  - repeat match type of Hf with
           | context [?a =? ?b] => destruct (Z.eqb_spec a b); [tauto |]
           end; discriminate.
Qed.

(** C1.  Eight data bits, no parity and one stop bit: a frame of ten
    bit-times (start, eight data, stop).  With the enumerators numbered as C
    numbers them, [DC_STOPBITS_ONE] is 0 and the successful call records
    nine, because line 359 adds the enumerator and not the number of stop
    bits it stands for. *)
Theorem dc_serial_configure_8N1_records_nine :
  let hdr := c_numbering in
  let o := run (steady healthy)
             (dc_serial_configure hdr fresh_session 9600 8 (DC_PARITY_NONE hdr)
                (DC_STOPBITS_ONE hdr) (DC_FLOWCONTROL_NONE hdr)) tt in
  result o = Some (DC_STATUS_SUCCESS, set_baudrate_nbits fresh_session 9600 9) /\
  9 <> 1 + 8 + 1 + 0.
Proof.
  split; [reflexivity | discriminate].
Qed.

(** Under the same numbering two stop bits are counted as two and one and
    a half as one. *)
Example dc_serial_configure_7E2_records_eleven :
  let hdr := c_numbering in
  result (run (steady healthy)
            (dc_serial_configure hdr fresh_session 9600 7 (DC_PARITY_EVEN hdr)
               (DC_STOPBITS_TWO hdr) (DC_FLOWCONTROL_HARDWARE hdr)) tt)
  = Some (DC_STATUS_SUCCESS, set_baudrate_nbits fresh_session 9600 11).
Proof. reflexivity. Qed.

(** Whatever the numbering of the header, a successful [configure] stores
    the baud rate it was given and the count
    [1 + databits + stopbits + (parity ? 1 : 0)], where [stopbits] and
    [parity] are the integer values of the enumerators passed. *)
Theorem dc_serial_configure_records_enumerator
    {W : Type} (hdr : serial_h) (m : os W) (w : W) (device device' : dc_serial_t)
    (baud databits parity stopbits flowcontrol : Z) :
  result (run m (dc_serial_configure hdr device baud databits parity
                   stopbits flowcontrol) w) = Some (DC_STATUS_SUCCESS, device') ->
  baudrate device' = baud /\
  nbits device' =
    to_uint32 (1 + databits + stopbits + (if parity =? 0 then 0 else 1)) /\
  halfduplex device' = halfduplex device /\
  hFile device' = hFile device /\
  dcb device' = dcb device /\
  timeouts device' = timeouts device.
Proof.
  intro H; apply dc_serial_configure_success in H as [-> _].
  repeat split.
Qed.

Lemma dc_serial_configure_records_enumerator_witness :
  result (run (steady healthy)
            (dc_serial_configure c_numbering fresh_session 2400 8 1 2 0) tt)
  = Some (DC_STATUS_SUCCESS, set_baudrate_nbits fresh_session 2400 12) /\
  nbits (set_baudrate_nbits fresh_session 2400 12) = to_uint32 (1 + 8 + 2 + 1).
Proof.
  assert (H : result (run (steady healthy)
                        (dc_serial_configure c_numbering fresh_session 2400 8 1 2 0) tt)
              = Some (DC_STATUS_SUCCESS, set_baudrate_nbits fresh_session 2400 12))
    by reflexivity.
  split; [exact H |].
  exact (proj1 (proj2 (dc_serial_configure_records_enumerator
                         c_numbering (steady healthy) tt fresh_session _ 2400 8 1 2 0 H))).
Defined.

(** ** Timeouts *)

Lemma assign_timeouts_eq (t : COMMTIMEOUTS) (interval multiplier constant : Z) :
  assign_timeouts t interval multiplier constant =
  {| ReadIntervalTimeout := interval;
     ReadTotalTimeoutMultiplier := multiplier;
     ReadTotalTimeoutConstant := constant;
     WriteTotalTimeoutMultiplier := 0;
     WriteTotalTimeoutConstant := 0 |}.
Proof. reflexivity. Qed.

Lemma to_uint32_small (z : Z) : 0 <= z <= UINT_MAX -> to_uint32 z = z.
Proof. unfold to_uint32, UINT_MAX; intro H; apply Z.mod_small; lia. Qed.

(** C8.  [dc_serial_set_timeout] hands the system a structure that
    depends on [timeout] alone, whatever structure it retrieved before: all
    five members zero for a negative timeout (blocking), the read interval
    at MAXDWORD and the rest zero for a zero timeout (non-blocking), and the
    total read constant equal to the timeout with no interval and no
    per-byte multiplier for a positive one.  It is the only structure the
    call sets, and a call that returns success has set it. *)
Theorem dc_serial_set_timeout_modes
    {W : Type} (m : os W) (w : W) (device : dc_serial_t) (timeout : Z) :
  INT_MIN <= timeout <= INT_MAX ->
  let o := run m (dc_serial_set_timeout device timeout) w in
  let mode :=
    if timeout <? 0 then
      {| ReadIntervalTimeout := 0; ReadTotalTimeoutMultiplier := 0;
         ReadTotalTimeoutConstant := 0; WriteTotalTimeoutMultiplier := 0;
         WriteTotalTimeoutConstant := 0 |}
    else if timeout =? 0 then
      {| ReadIntervalTimeout := MAXDWORD; ReadTotalTimeoutMultiplier := 0;
         ReadTotalTimeoutConstant := 0; WriteTotalTimeoutMultiplier := 0;
         WriteTotalTimeoutConstant := 0 |}
    else
      {| ReadIntervalTimeout := 0; ReadTotalTimeoutMultiplier := 0;
         ReadTotalTimeoutConstant := timeout; WriteTotalTimeoutMultiplier := 0;
         WriteTotalTimeoutConstant := 0 |} in
  (forall previous, update_timeouts previous timeout = mode) /\
  (system_calls (calls o) =
     [GetCommTimeouts (hFile device); SetCommTimeouts (hFile device) mode] \/
   system_calls (calls o) = [GetCommTimeouts (hFile device)] /\
   failures (trace o) = [GetCommTimeouts (hFile device)]) /\
  (result o = Some DC_STATUS_SUCCESS <-> failures (trace o) = []) /\
  (result o = Some DC_STATUS_SUCCESS -> timeouts_set (calls o) = [mode]).
Proof.
  intros Hint o mode.
  assert (Hmode : forall previous, update_timeouts previous timeout = mode).
  { intro previous; unfold update_timeouts, mode.
    rewrite !assign_timeouts_eq.
    destruct (Z.ltb_spec timeout 0); [reflexivity |].
    destruct (Z.eqb_spec timeout 0); [reflexivity |].
    rewrite to_uint32_small; [reflexivity |].
    unfold INT_MAX, UINT_MAX in *; lia. }
  split; [exact Hmode |].
  subst o. unfold dc_serial_set_timeout, last_error.
  ask.
  - rewrite Hmode. repeat ask; unfold calls, failures; cbn;
      (split; [auto | split; [| first [reflexivity | discriminate]]]);
      first [tauto | apply syserror_success_iff; discriminate].
  - repeat ask; unfold calls, failures; cbn.
    split; [auto |]. split; [apply syserror_success_iff; discriminate |].
    intro E; injection E as E; now apply syserror_not_success in E.
Qed.

Lemma dc_serial_set_timeout_modes_witness :
  INT_MIN <= 250 <= INT_MAX /\
  timeouts_set (calls (run (steady healthy)
                         (dc_serial_set_timeout fresh_session 250) tt))
  = [{| ReadIntervalTimeout := 0; ReadTotalTimeoutMultiplier := 0;
        ReadTotalTimeoutConstant := 250; WriteTotalTimeoutMultiplier := 0;
        WriteTotalTimeoutConstant := 0 |}].
Proof.
  assert (H : INT_MIN <= 250 <= INT_MAX) by (unfold INT_MIN, INT_MAX; lia).
  split; [exact H |].
  apply (dc_serial_set_timeout_modes (steady healthy) tt fresh_session 250 H).
  reflexivity.
Defined.

(** Blocking, then non-blocking, then a deadline of 250 on a port that
    remembers what it was given: each call sets its own mode. *)
Example three_timeouts_in_a_row :
  timeouts_set
    (calls (run remembering
              (session c_numbering fresh_session
                 [vt_set_timeout (-1); vt_set_timeout 0; vt_set_timeout 250])
              driver_timeouts))
  = [{| ReadIntervalTimeout := 0; ReadTotalTimeoutMultiplier := 0;
        ReadTotalTimeoutConstant := 0; WriteTotalTimeoutMultiplier := 0;
        WriteTotalTimeoutConstant := 0 |};
     {| ReadIntervalTimeout := MAXDWORD; ReadTotalTimeoutMultiplier := 0;
        ReadTotalTimeoutConstant := 0; WriteTotalTimeoutMultiplier := 0;
        WriteTotalTimeoutConstant := 0 |};
     {| ReadIntervalTimeout := 0; ReadTotalTimeoutMultiplier := 0;
        ReadTotalTimeoutConstant := 250; WriteTotalTimeoutMultiplier := 0;
        WriteTotalTimeoutConstant := 0 |}].
Proof. reflexivity. Qed.

(** ** Reading and writing *)

Arguments elapsed_us : simpl never.
Arguments expected_us : simpl never.
Arguments sleep_ms : simpl never.
Arguments to_uint32 : simpl never.

(** Follow a run of [dc_serial_write] through all its branches. *)
Ltac walk :=
  repeat first
    [ ask
    | match goal with
      | |- context [match elapsed_us ?f ?b ?e with _ => _ end] =>
          destruct (elapsed_us f b e) eqn:?
      | |- context [match expected_us ?n ?b ?s with _ => _ end] =>
          destruct (expected_us n b s) eqn:?
      | |- context [if ?x <? ?y then _ else _] =>
          destruct (Z.ltb_spec x y)
      end; cbn -[Z.eqb Z.ltb Z.leb] ].

(** C3, refuted as stated: a half-duplex write whose [WriteFile] succeeded
    and transferred all four bytes, but whose second reading of the
    performance counter failed, returns the translation of that error and
    not success. *)
Lemma write_complete_but_counter_failed :
  let o := run (failing_after 3) (dc_serial_write half_duplex_session 4 true) 0%nat in
  calls o = [QueryPerformanceFrequency; QueryPerformanceCounter; WriteFile 1 4;
             QueryPerformanceCounter; GetLastError; SYSERROR ERROR_ACCESS_DENIED] /\
  failures (trace o) = [QueryPerformanceCounter] /\
  transferred (trace o) = 4 /\
  result o = Some (DC_STATUS_NOACCESS, Some 4).
Proof. vm_compute. repeat split. Qed.

(** C3, amended.  In every read or write in which no call to the system
    fails (the transfer and, for a half-duplex write, the readings of the
    performance counter) and the turnaround computation is defined, the
    status is success exactly when the transferred count equals the
    requested size and timeout otherwise, and the count is what is stored
    through [actual]. *)
Theorem transfer_status_by_count
    {W : Type} (m : os W) (w : W) (device : dc_serial_t) (size : Z) (actual : bool)
    (o : outcome W (dc_status_t * option Z)) :
  o = run m (dc_serial_read device size actual) w \/
  o = run m (dc_serial_write device size actual) w ->
  failures (trace o) = [] ->
  result o <> None ->
  result o =
  Some (if transferred (trace o) =? size then DC_STATUS_SUCCESS
        else DC_STATUS_TIMEOUT,
        if actual then Some (transferred (trace o)) else None).
Proof.
  intros [-> | ->].
  - unfold dc_serial_read, last_error.
    walk; unfold failures, transferred; cbn -[Z.eqb]; try discriminate.
    intros _ _. destruct (count =? size); reflexivity.
  - unfold dc_serial_write, start_clock, turnaround, dc_serial_sleep, last_error.
    destruct (halfduplex device =? 0); cbn -[Z.eqb];
      walk; unfold failures, transferred; cbn -[Z.eqb]; try discriminate;
      try (intros _ _; destruct (count =? size); reflexivity);
      try (intros _ H; exfalso; apply H; reflexivity).
Qed.

Lemma transfer_status_by_count_witness :
  failures (trace (run short_transfer (dc_serial_write half_duplex_session 4 true) tt))
  = [] /\
  result (run short_transfer (dc_serial_write half_duplex_session 4 true) tt)
  = Some (DC_STATUS_TIMEOUT, Some 2).
Proof.
  assert (H : failures (trace (run short_transfer
                                 (dc_serial_write half_duplex_session 4 true) tt)) = [])
    by (vm_compute; reflexivity).
  split; [exact H |].
  pose proof (transfer_status_by_count short_transfer tt half_duplex_session 4 true _
                (or_intror eq_refl) H) as P.
  vm_compute in P. vm_compute. apply P. discriminate.
Defined.

Example read_complete :
  result (run (steady healthy) (dc_serial_read fresh_session 16 true) tt)
  = Some (DC_STATUS_SUCCESS, Some 16).
Proof. vm_compute. reflexivity. Qed.

Example read_short :
  result (run short_transfer (dc_serial_read fresh_session 16 true) tt)
  = Some (DC_STATUS_TIMEOUT, Some 2).
Proof. vm_compute. reflexivity. Qed.

(** C10.  [actual] may be null, and then nothing is stored.  When it is
    not, every path on which [dc_serial_read] or [dc_serial_write] returns
    stores the byte counter through it: the value the transfer left there,
    or the initial 0 when the function left before any transfer was handed
    to the system.  A read always returns; a write fails to return only when
    the half-duplex computation is undefined. *)
Theorem actual_reports_byte_counter
    {W : Type} (m : os W) (w : W) (device : dc_serial_t) (size : Z) (actual : bool) :
  let rd := run m (dc_serial_read device size actual) w in
  let wr := run m (dc_serial_write device size actual) w in
  (exists status,
     result rd = Some (status, if actual then Some (transferred (trace rd)) else None)) /\
  (result wr = None /\ halfduplex device <> 0 /\ failures (trace wr) = [] \/
   exists status,
     result wr = Some (status, if actual then Some (transferred (trace wr)) else None)) /\
  (existsb is_transfer (calls wr) = false ->
   result wr <> None /\ transferred (trace wr) = 0).
Proof.
  intros rd wr; subst rd wr. split; [| split].
  - unfold dc_serial_read, last_error.
    walk; unfold transferred; cbn; eauto.
  - unfold dc_serial_write, start_clock, turnaround, dc_serial_sleep, last_error.
    destruct (Z.eqb_spec (halfduplex device) 0); cbn -[Z.eqb];
      walk; unfold failures, transferred; cbn; eauto.
  - unfold dc_serial_write, start_clock, turnaround, dc_serial_sleep, last_error.
    destruct (Z.eqb_spec (halfduplex device) 0); cbn -[Z.eqb];
      walk; unfold calls, transferred; cbn; try discriminate;
      (split; [discriminate | reflexivity]).
Qed.

Example write_null_actual :
  result (run short_transfer (dc_serial_write fresh_session 4 false) tt)
  = Some (DC_STATUS_TIMEOUT, None).
Proof. vm_compute. reflexivity. Qed.

Example write_failed_before_transfer :
  let o := run (steady failing) (dc_serial_write half_duplex_session 4 true) tt in
  calls o = [QueryPerformanceFrequency; GetLastError; SYSERROR ERROR_ACCESS_DENIED] /\
  result o = Some (DC_STATUS_NOACCESS, Some 0).
Proof. vm_compute. split; reflexivity. Qed.

(** ** The half-duplex turnaround *)

Lemma sleep_ms_rounds_up (remaining : Z) :
  0 < remaining -> remaining + 999 <= UINT_MAX ->
  sleep_ms remaining = round_up_ms remaining /\
  1000 * (sleep_ms remaining - 1) < remaining <= 1000 * sleep_ms remaining.
Proof.
  intros Hpos Hmax. unfold sleep_ms, round_up_ms.
  rewrite to_uint32_small by lia.
  split; [reflexivity |].
  pose proof (Z.div_mod (remaining + 999) 1000 ltac:(lia)) as E.
  pose proof (Z.mod_pos_bound (remaining + 999) 1000 ltac:(lia)) as B.
  lia.
Qed.

(** The two times in a format [f] are the ones of the run when [f] is
    [double] itself. *)
Lemma elapsed_us_in_binary64 (freq begin end_ : Z) :
  elapsed_us_in binary64 freq begin end_ = elapsed_us freq begin end_.
Proof. reflexivity. Qed.

Lemma expected_us_in_binary64 (nbits baudrate size : Z) :
  expected_us_in binary64 nbits baudrate size = expected_us nbits baudrate size.
Proof. reflexivity. Qed.

(** C4.  At 10000 baud and ten bit-times per byte a half-duplex write of
    4294965 bytes is expected to last 4294967000 microseconds, in every
    evaluation format, all the operations being exact on these values.  No
    call to the system fails, and the system completes the write within a
    microsecond.  The remaining 4294967000 microseconds round up to 4294967
    milliseconds, as the comment of the source has it; but [remaining + 999]
    wraps around in the 32-bit [unsigned long], and the backend sleeps for 0
    milliseconds and returns success. *)
Theorem half_duplex_sleep_wraps_around :
  let o := run (steady healthy) (session c_numbering fresh_session long_write) tt in
  option_map (fun r => (halfduplex (snd r), baudrate (snd r), nbits (snd r)))
    (result o) = Some (1, 10000, 10) /\
  option_map fst (result o)
  = Some [DC_STATUS_SUCCESS; DC_STATUS_SUCCESS; DC_STATUS_SUCCESS] /\
  failures (trace o) = [] /\
  readings (trace o) = [1000000; 0; 0] /\
  map (fun f => elapsed_us_in f 1000000 0 0) evaluation_formats
  = [Some 0; Some 0; Some 0] /\
  map (fun f => expected_us_in f 10 10000 4294965) evaluation_formats
  = [Some 4294967000; Some 4294967000; Some 4294967000] /\
  elapsed_us 1000000 0 0 = Some 0 /\
  expected_us 10 10000 4294965 = Some 4294967000 /\
  round_up_ms (4294967000 - 0) = 4294967 /\
  to_uint32 (4294967000 - 0 + 999) = 703 /\
  sleep_ms (4294967000 - 0) = 0 /\
  sleeps (calls o) = [0] /\
  last (calls o) GetLastError = Sleep 0.
Proof. vm_compute. repeat split. Qed.

(** In a half-duplex write in which no call to the system fails, the
    frequency and the counter before and after [WriteFile] are read, and
    from them the elapsed and the expected time in microseconds, as lines
    488 and 492 compute them.  When both are defined and the elapsed time is
    less than the expected one, the last call before returning is a sleep;
    its length is the difference rounded up to whole milliseconds provided
    the rounding does not leave the 32-bit range.  When the elapsed time is
    not less, there is no sleep.  When either time is undefined, so is the
    behaviour. *)
Theorem half_duplex_turnaround
    {W : Type} (m : os W) (w : W) (device : dc_serial_t) (size : Z) (actual : bool) :
  halfduplex device <> 0 ->
  let o := run m (dc_serial_write device size actual) w in
  failures (trace o) = [] ->
  exists freq begin end_,
    readings (trace o) = [freq; begin; end_] /\
    match elapsed_us freq begin end_,
          expected_us (nbits device) (baudrate device) size with
    | Some elapsed, Some expected =>
        result o <> None /\
        if elapsed <? expected then
          calls o = [QueryPerformanceFrequency; QueryPerformanceCounter;
                     WriteFile (hFile device) (to_uint32 size);
                     QueryPerformanceCounter;
                     Sleep (sleep_ms (expected - elapsed))] /\
          (expected - elapsed + 999 <= UINT_MAX ->
           sleep_ms (expected - elapsed) = round_up_ms (expected - elapsed) /\
           1000 * (sleep_ms (expected - elapsed) - 1) < expected - elapsed
             <= 1000 * sleep_ms (expected - elapsed))
        else
          calls o = [QueryPerformanceFrequency; QueryPerformanceCounter;
                     WriteFile (hFile device) (to_uint32 size);
                     QueryPerformanceCounter]
    | _, _ => result o = None
    end.
Proof.
  intros Hhd o; subst o.
  unfold dc_serial_write, start_clock, turnaround, dc_serial_sleep, last_error.
  destruct (Z.eqb_spec (halfduplex device) 0) as [E | _]; [contradiction |].
  cbn -[Z.eqb].
  walk; unfold failures, calls; cbn -[Z.eqb Z.ltb]; try discriminate; intros _;
    match goal with
    | Hf : respond _ QueryPerformanceFrequency _ = (Some ?f, _),
      Hb : respond _ QueryPerformanceCounter _ = (Some ?b, _),
      He : respond _ QueryPerformanceCounter _ = (Some ?e, ?w3) |- _ =>
        lazymatch type of Hb with
        | respond _ _ w3 = _ => fail
        | _ => exists f, b, e
        end
    end;
    (split; [reflexivity |]);
    repeat match goal with
           | H : elapsed_us _ _ _ = _ |- _ => rewrite H; clear H
           | H : expected_us _ _ _ = _ |- _ => rewrite H; clear H
           end;
    try reflexivity.
  - split; [discriminate |].
    destruct (Z.ltb_spec z2 z3); [| lia].
    split; [reflexivity |].
    intro Hmax; apply sleep_ms_rounds_up; lia.
  - split; [discriminate |].
    destruct (Z.ltb_spec z2 z3); [lia | reflexivity].
Qed.

(** One byte at 9600 baud with ten bit-times: 1041.67 microseconds on
    the line, 3042 with the rounding and the margin.  A write of five
    million bytes would last longer than an [unsigned long] holds in
    microseconds. *)
Example expected_us_values :
  expected_us 10 9600 1 = Some 3042 /\
  expected_us 10 9600 100 = Some 106167 /\
  expected_us 10 9600 5000000 = None /\
  elapsed_us 10000000 100 15004 = Some 1490.
Proof. vm_compute. repeat split. Qed.

(** For the usual line settings and in each of the evaluation formats,
    the expected duration that line 492 computes is within one microsecond
    of the exactly rounded one.  In none of the formats is it always equal
    to it, and the formats do not always agree: with eleven bit-times at 9600
    baud, 51 bytes last 58437.5 microseconds, which gives 60437 with a
    significand of 53 bits and 60438 with one of 64 bits; with ten bit-times
    at 19200 baud, 27 bytes last 14062.5 microseconds, which gives 16063
    with 53 bits and 16062 with 64 bits. *)
Theorem expected_us_near_exact :
  forallb (fun f => forallb (within_one_us_in f) usual_settings) evaluation_formats
  = true /\
  forallb within_one_us usual_settings = true /\
  List.length usual_settings = 4224%nat /\
  map (fun f => expected_us_in f 11 9600 51) evaluation_formats
  = [Some 60437; Some 60437; Some 60438] /\
  nearest_us 11 9600 51 = 60438 /\
  map (fun f => expected_us_in f 10 19200 27) evaluation_formats
  = [Some 16063; Some 16063; Some 16062] /\
  nearest_us 10 19200 27 = 16063.
Proof. vm_compute. repeat split. Qed.

Lemma half_duplex_turnaround_witness :
  halfduplex half_duplex_session <> 0 /\
  failures (trace (run (steady healthy)
                     (dc_serial_write half_duplex_session 4 true) tt)) = [] /\
  expected_us 10 9600 4 = Some 6167 /\
  calls (run (steady healthy) (dc_serial_write half_duplex_session 4 true) tt)
  = [QueryPerformanceFrequency; QueryPerformanceCounter; WriteFile 1 4;
     QueryPerformanceCounter; Sleep 7].
Proof.
  assert (H1 : halfduplex half_duplex_session <> 0) by discriminate.
  assert (H2 : failures (trace (run (steady healthy)
                                  (dc_serial_write half_duplex_session 4 true) tt))
               = []) by (vm_compute; reflexivity).
  split; [exact H1 |]. split; [exact H2 |].
  split; [vm_compute; reflexivity |].
  destruct (half_duplex_turnaround (steady healthy) tt half_duplex_session 4 true
              H1 H2) as (f & b & e & Hr & Hm).
  vm_compute in Hr. injection Hr as <- <- <-.
  vm_compute in Hm. vm_compute. apply Hm.
Defined.

(** ** Writing before the line is configured *)

Lemma div_by_zero_not_finite (x : Double.double) :
  Double.not_finite (Double.div x (Double.of_Z 0)) = true.
Proof. destruct x as [s | s | | s mx ex]; reflexivity. Qed.

Lemma mul_not_finite (x y : Double.double) :
  Double.not_finite x = true -> Double.not_finite (Double.mul x y) = true.
Proof.
  destruct x as [sx | sx | | sx mx ex]; try discriminate; intros _;
    destruct y as [sy | sy | | sy my ey]; reflexivity.
Qed.

Lemma add_not_finite (x y : Double.double) :
  Double.not_finite x = true -> Double.not_finite (Double.add x y) = true.
Proof.
  destruct x as [sx | sx | | sx mx ex]; try discriminate; intros _;
    destruct y as [sy | sy | | sy my ey]; try reflexivity.
  destruct sx, sy; reflexivity.
Qed.

Lemma to_ulong_not_finite (x : Double.double) :
  Double.not_finite x = true -> Double.to_ulong x = None.
Proof. destruct x; try discriminate; reflexivity. Qed.

(** With a baud rate of zero the quotient is an infinity or a NaN, and so
    is everything computed from it: the conversion to [unsigned long] has
    no defined result. *)
Lemma expected_us_zero_baud (n size : Z) : expected_us n 0 size = None.
Proof.
  unfold expected_us.
  apply to_ulong_not_finite, add_not_finite, add_not_finite, mul_not_finite,
    div_by_zero_not_finite.
Qed.

Lemma dc_status_eqb_false (s : dc_status_t) :
  dc_status_eqb s DC_STATUS_SUCCESS = false -> s <> DC_STATUS_SUCCESS.
Proof. intros H ->; discriminate. Qed.

Lemma keep_result {W : Type} (m : os W) (w : W) (device device' : dc_serial_t)
    (p : prog dc_status_t) (status : dc_status_t) :
  result (run m (keep device p) w) = Some (status, device') -> device' = device.
Proof.
  unfold keep; rewrite run_bind.
  destruct (result (run m p w)); cbn; [| discriminate].
  intro E; now injection E.
Qed.

Lemma keep_fst_result {W A : Type} (m : os W) (w : W) (device device' : dc_serial_t)
    (p : prog (dc_status_t * A)) (status : dc_status_t) :
  result (run m (keep_fst device p) w) = Some (status, device') -> device' = device.
Proof.
  unfold keep_fst; rewrite run_bind.
  destruct (result (run m p w)); cbn; [| discriminate].
  intro E; now injection E.
Qed.

(** A [configure] that does not return success leaves the session as it
    was. *)
Lemma dc_serial_configure_failure
    {W : Type} (hdr : serial_h) (m : os W) (w : W) (device device' : dc_serial_t)
    (baud databits parity stopbits flowcontrol : Z) (status : dc_status_t) :
  result (run m (dc_serial_configure hdr device baud databits parity
                   stopbits flowcontrol) w) = Some (status, device') ->
  status <> DC_STATUS_SUCCESS -> device' = device.
Proof.
  unfold dc_serial_configure, last_error.
  ask.
  2: { repeat ask. intro E; now injection E. }
  destruct ((5 <=? databits) && (databits <=? 8)); cbn;
    [| intro E; now injection E].
  destruct (configure_parity hdr parity _) as [d1 |]; cbn;
    [| intro E; now injection E].
  destruct (configure_stopbits hdr stopbits d1) as [d2 |]; cbn;
    [| intro E; now injection E].
  destruct (configure_flowcontrol hdr flowcontrol d2) as [d3 |]; cbn;
    [| intro E; now injection E].
  ask.
  - intro E; injection E as <- _. now intros [].
  - repeat ask. intro E; now injection E.
Qed.

(** The operations other than a successful [configure] keep the baud rate
    and the bit-time count. *)
Lemma perform_keeps_line_settings
    {W : Type} (hdr : serial_h) (m : os W) (w : W) (device device' : dc_serial_t)
    (op : operation) (status : dc_status_t) :
  result (run m (perform hdr device op) w) = Some (status, device') ->
  never_configured [op] [status] = true ->
  baudrate device' = baudrate device /\ nbits device' = nbits device.
Proof.
  destruct op; cbn [perform never_configured]; intros H Hc;
    try (apply keep_result in H; subst; tauto);
    try (apply keep_fst_result in H; subst; tauto).
  - cbn in H. injection H as _ <-. tauto.
  - cbn in H. injection H as _ <-. tauto.
  - apply dc_serial_configure_failure in H; [subst; tauto |].
    apply dc_status_eqb_false.
    now destruct (dc_status_eqb status DC_STATUS_SUCCESS).
Qed.

Lemma session_keeps_line_settings
    {W : Type} (hdr : serial_h) (m : os W) (ops : list operation) :
  forall (w : W) (device device' : dc_serial_t) (statuses : list dc_status_t),
    result (run m (session hdr device ops) w) = Some (statuses, device') ->
    never_configured ops statuses = true ->
    baudrate device' = baudrate device /\ nbits device' = nbits device.
Proof.
  induction ops as [| op ops IH]; intros w device device' statuses.
  - cbn. intro E; injection E as _ <-. tauto.
  - cbn [session]. rewrite run_bind.
    destruct (result (run m (perform hdr device op) w)) as [[s d] |] eqn:Hop;
      cbn; [| discriminate].
    rewrite run_bind.
    destruct (result (run m (session hdr d ops) _)) as [[ss d'] |] eqn:Hrest;
      cbn; [| discriminate].
    intro E; injection E as <- <-.
    intro Hc.
    assert (Hhead : never_configured [op] [s] = true).
    { destruct op; cbn in *; try reflexivity.
      apply andb_true_iff in Hc as [-> _]; reflexivity. }
    assert (Htail : never_configured ops ss = true).
    { destruct op; cbn in Hc; try exact Hc.
      now apply andb_true_iff in Hc as [_ Hc]. }
    destruct (perform_keeps_line_settings hdr m w device d op s Hop Hhead) as [Eb En].
    destruct (IH _ _ _ _ Hrest Htail) as [Eb' En'].
    split; congruence.
Qed.

(** A session that [dc_serial_open] has just created is full-duplex, with
    baud rate and bit-time count zero. *)
Lemma dc_serial_open_initial
    {W : Type} (m : os W) (w : W) (out : bool) (name : option string)
    (status : dc_status_t) (device : dc_serial_t) :
  result (run m (dc_serial_open out name) w) = Some (status, Some device) ->
  status = DC_STATUS_SUCCESS /\
  halfduplex device = 0 /\ baudrate device = 0 /\ nbits device = 0.
Proof.
  unfold dc_serial_open, last_error.
  destruct out; [| discriminate]. destruct name as [name |]; [| discriminate].
  ask.
  destruct (negb (String.prefix device_prefix name) && _); [discriminate |].
  repeat ask; try discriminate.
  intro E; injection E as <- <-. repeat split.
Qed.

(** C9.  On a session that was opened and then used without any
    successful [configure], the baud rate is still the zero that
    [dc_serial_open] stored.  A half-duplex write on it in which no call to
    the system fails goes on, unguarded, to divide by that baud rate: the
    expected duration has no defined value and neither has the write.  For
    any bit-time count and size the expected duration is undefined when the
    baud rate is zero. *)
Theorem half_duplex_write_before_configure
    {W : Type} (hdr : serial_h) (m : os W) (w0 w1 w2 : W) (name : string)
    (device device' : dc_serial_t) (ops : list operation)
    (statuses : list dc_status_t) (size : Z) (actual : bool) :
  result (run m (dc_serial_open true (Some name)) w0)
  = Some (DC_STATUS_SUCCESS, Some device) ->
  result (run m (session hdr device ops) w1) = Some (statuses, device') ->
  never_configured ops statuses = true ->
  halfduplex device' <> 0 ->
  let o := run m (dc_serial_write device' size actual) w2 in
  baudrate device' = 0 /\
  expected_us (nbits device') (baudrate device') size = None /\
  (failures (trace o) = [] -> result o = None) /\
  (forall n s, expected_us n 0 s = None).
Proof.
  intros Hopen Hsession Hnever Hhd o.
  apply dc_serial_open_initial in Hopen as (_ & _ & Hbaud & _).
  apply session_keeps_line_settings in Hsession as [Hbaud' _]; [| exact Hnever].
  rewrite Hbaud in Hbaud'.
  assert (Hz : expected_us (nbits device') (baudrate device') size = None).
  { rewrite Hbaud'. apply expected_us_zero_baud. }
  split; [exact Hbaud' |]. split; [exact Hz |].
  split; [| exact expected_us_zero_baud].
  subst o.
  unfold dc_serial_write, start_clock, turnaround, dc_serial_sleep, last_error.
  destruct (Z.eqb_spec (halfduplex device') 0) as [E | _]; [contradiction |].
  cbn -[Z.eqb].
  walk; unfold failures; cbn -[Z.eqb Z.ltb]; try discriminate; try reflexivity;
    congruence.
Qed.

Lemma half_duplex_write_before_configure_witness :
  result (run (steady healthy) (dc_serial_open true (Some "COM1"%string)) tt)
  = Some (DC_STATUS_SUCCESS, Some fresh_session) /\
  result (run (steady healthy) (session c_numbering fresh_session unconfigured) tt)
  = Some ([DC_STATUS_SUCCESS; DC_STATUS_SUCCESS],
          set_halfduplex fresh_session 1) /\
  calls (run (steady healthy)
           (dc_serial_write (set_halfduplex fresh_session 1) 4 true) tt)
  = [QueryPerformanceFrequency; QueryPerformanceCounter; WriteFile 1 4;
     QueryPerformanceCounter] /\
  result (run (steady healthy)
            (dc_serial_write (set_halfduplex fresh_session 1) 4 true) tt)
  = None.
Proof.
  assert (H1 : result (run (steady healthy)
                         (dc_serial_open true (Some "COM1"%string)) tt)
               = Some (DC_STATUS_SUCCESS, Some fresh_session))
    by (vm_compute; reflexivity).
  assert (H2 : result (run (steady healthy)
                         (session c_numbering fresh_session unconfigured) tt)
               = Some ([DC_STATUS_SUCCESS; DC_STATUS_SUCCESS],
                       set_halfduplex fresh_session 1))
    by (vm_compute; reflexivity).
  assert (H3 : never_configured unconfigured
                 [DC_STATUS_SUCCESS; DC_STATUS_SUCCESS] = true) by reflexivity.
  assert (H4 : halfduplex (set_halfduplex fresh_session 1) <> 0) by discriminate.
  split; [exact H1 |]. split; [exact H2 |].
  split; [vm_compute; reflexivity |].
  apply (half_duplex_write_before_configure c_numbering (steady healthy) tt tt tt
           "COM1" fresh_session (set_halfduplex fresh_session 1) unconfigured
           [DC_STATUS_SUCCESS; DC_STATUS_SUCCESS] 4 true H1 H2 H3 H4).
  vm_compute; reflexivity.
Defined.

(** ** Enumerating the ports *)

Lemma fits_leb (v : reg_value) :
  (sizeof_data <=? Z.of_nat (String.length (rv_data v))) = negb (fits v).
Proof. unfold fits. apply Z.leb_antisym. Qed.

Lemma indices_next (i : Z) (len : nat) (l : list Z) :
  l = map (fun k => i + 1 + Z.of_nat k) (seq 0 len) ->
  i :: l = map (fun k => i + Z.of_nat k) (seq 0 (S len)).
Proof.
  intros ->. cbn [seq map]. f_equal; [lia |].
  rewrite <- seq_shift, map_map.
  apply map_ext; intro k; lia.
Qed.

Lemma port_names_cons (v : reg_value) (values : list reg_value) :
  port_names (v :: values) =
  if is_string v then c_string (rv_data v) :: port_names values
  else port_names values.
Proof. unfold port_names; cbn. now destruct (is_string v). Qed.

(** The loop over the values of the key: it asks for the indices from [i]
    on, in order; it passes every acceptable value, handing the strings to
    the callback, until the count is exhausted or it meets a value that is
    not acceptable, which ends it with that value's verdict. *)
Lemma enumerate_values_spec {W : Type} (m : os W) (hKey : HKEY) (userdata : Z) :
  forall (n : nat) (i : Z) (w : W),
    let o := run m (enumerate_values hKey userdata n i) w in
    let values := enumerated (trace o) in
    indices (calls o) = map (fun k => i + Z.of_nat k) (seq 0 (List.length values)) /\
    (result o = Some DC_STATUS_SUCCESS /\
     List.length values = n /\
     forallb acceptable values = true /\
     callbacks (calls o) = port_names values
     \/
     exists good bad,
       values = good ++ [bad] /\
       forallb acceptable good = true /\
       acceptable bad = false /\
       (List.length good < n)%nat /\
       result o = Some (verdict bad) /\
       callbacks (calls o) = port_names good).
Proof.
  induction n as [| n IH]; intros i w.
  - cbn. ask. cbn. split; [reflexivity |]. left. repeat split.
  - cbn [enumerate_values]. ask.
    change (rv_rc a =? ERROR_SUCCESS) with (readable a).
    change (rv_type a =? REG_SZ) with (is_string a).
    rewrite fits_leb.
    destruct (readable a) eqn:Hr; cbn [negb].
    2: { ask. unfold calls; cbn. split; [f_equal; lia |].
         right. exists [], a. unfold acceptable, verdict. rewrite Hr. cbn.
         repeat split. lia. }
    destruct (is_string a) eqn:Hs; cbn [negb].
    + destruct (fits a) eqn:Hf; cbn [negb].
      2: { ask. unfold calls; cbn. split; [f_equal; lia |].
           right. exists [], a. unfold acceptable, verdict. rewrite Hr, Hs, Hf. cbn.
           repeat split. lia. }
      ask.
      specialize (IH (i + 1) w1).
      destruct (run m (enumerate_values hKey userdata n (i + 1)) w1)
        as [t r w2].
      unfold calls in *. cbn [trace result map io_call indices callbacks enumerated] in *.
      destruct IH as [Hi IH].
      split; [cbn [List.length]; now apply indices_next |].
      assert (Ha : acceptable a = true)
        by (unfold acceptable; now rewrite Hr, Hs, Hf).
      destruct IH as [(Hres & Hlen & Hacc & Hcb)
                     | (good & bad & Hv & Hg & Hb & Hl & Hres & Hcb)].
      * left. rewrite port_names_cons, Hs, Hcb. cbn [List.length forallb].
        rewrite Ha, Hacc, Hlen. repeat split. exact Hres.
      * right. exists (a :: good), bad.
        rewrite port_names_cons, Hs, Hcb, Hv. cbn [List.length forallb].
        rewrite Ha, Hg. repeat split; [exact Hb | lia | exact Hres].
    + specialize (IH (i + 1) w0).
      destruct (run m (enumerate_values hKey userdata n (i + 1)) w0)
        as [t r w2].
      unfold calls in *. cbn [trace result map io_call indices callbacks enumerated] in *.
      destruct IH as [Hi IH].
      split; [cbn [List.length]; now apply indices_next |].
      assert (Ha : acceptable a = true)
        by (unfold acceptable; now rewrite Hr, Hs).
      destruct IH as [(Hres & Hlen & Hacc & Hcb)
                     | (good & bad & Hv & Hg & Hb & Hl & Hres & Hcb)].
      * left. rewrite port_names_cons, Hs, Hcb. cbn [List.length forallb].
        rewrite Ha, Hacc, Hlen. repeat split. exact Hres.
      * right. exists (a :: good), bad.
        rewrite port_names_cons, Hs, Hcb, Hv. cbn [List.length forallb].
        rewrite Ha, Hg. repeat split; [exact Hb | lia | exact Hres].
Qed.

(** C6.  [dc_serial_enumerate] always returns.  When the registry key
    does not exist it returns success without any further call, so without
    calling the callback; when the key cannot be opened for another reason,
    or its number of values cannot be queried, it returns the I/O status.
    Otherwise it reads the values from index 0 on.  When it returns success
    it has read as many values as the key holds, all of them acceptable, and
    has called the callback once per string-typed value, in order, with that
    value's data, the values of another type being passed over.  A value
    that cannot be read (I/O status) or a string that fills the buffer
    (out-of-memory status) is the last value read: the enumeration ends
    there, with the callbacks made for the strings before it. *)
Theorem dc_serial_enumerate_callbacks
    {W : Type} (m : os W) (w : W) (userdata : Z) :
  let o := run m (dc_serial_enumerate userdata) w in
  let values := enumerated (trace o) in
  exists rc hKey,
    hd_error (trace o) = Some (IO RegOpenKeyExA (rc, hKey)) /\
    (rc = ERROR_FILE_NOT_FOUND ->
     result o = Some DC_STATUS_SUCCESS /\ calls o = [RegOpenKeyExA]) /\
    (rc <> ERROR_SUCCESS -> rc <> ERROR_FILE_NOT_FOUND ->
     result o = Some DC_STATUS_IO /\ calls o = [RegOpenKeyExA]) /\
    (rc = ERROR_SUCCESS ->
     exists qrc count,
       nth_error (trace o) 1 = Some (IO (RegQueryInfoKey hKey) (qrc, count)) /\
       (qrc <> ERROR_SUCCESS ->
        result o = Some DC_STATUS_IO /\
        calls o = [RegOpenKeyExA; RegQueryInfoKey hKey; RegCloseKey hKey]) /\
       (qrc = ERROR_SUCCESS ->
        indices (calls o) = map Z.of_nat (seq 0 (List.length values)) /\
        (result o = Some DC_STATUS_SUCCESS /\
         List.length values = Z.to_nat count /\
         forallb acceptable values = true /\
         callbacks (calls o) = port_names values
         \/
         exists good bad,
           values = good ++ [bad] /\
           forallb acceptable good = true /\
           acceptable bad = false /\
           (List.length good < Z.to_nat count)%nat /\
           result o = Some (verdict bad) /\
           callbacks (calls o) = port_names good))).
Proof.
  intros o values; subst o values.
  unfold dc_serial_enumerate.
  ask. rename z into rc, h into hKey. exists rc, hKey.
  destruct (Z.eqb_spec rc ERROR_SUCCESS) as [Hrc | Hrc]; cbn [negb].
  - ask. rename z into qrc, d into count.
    destruct (Z.eqb_spec qrc ERROR_SUCCESS) as [Hq | Hq]; cbn [negb].
    + pose proof (enumerate_values_spec m hKey userdata (Z.to_nat count) 0 w1)
        as Hloop.
      destruct (run m (enumerate_values hKey userdata (Z.to_nat count) 0) w1)
        as [t r w2].
      unfold calls in *.
      cbn [trace result map io_call indices callbacks enumerated hd_error
             nth_error] in *.
      split; [reflexivity |].
      split; [intro E; rewrite E in Hrc; discriminate |].
      split; [intro E; contradiction |].
      intros _. exists qrc, count.
      split; [reflexivity |].
      split; [intro E; contradiction |].
      intros _. exact Hloop.
    + ask. unfold calls; cbn.
      split; [reflexivity |].
      split; [intro E; rewrite E in Hrc; discriminate |].
      split; [intro E; contradiction |].
      intros _. exists qrc, count.
      split; [reflexivity |].
      split; [intros _; split; reflexivity | intro E; contradiction].
  - destruct (Z.eqb_spec rc ERROR_FILE_NOT_FOUND) as [Hnf | Hnf]; cbn.
    + split; [reflexivity |].
      split; [intros _; split; reflexivity |].
      split; [intros _ E; contradiction | intro E; contradiction].
    + split; [reflexivity |].
      split; [intro E; contradiction |].
      split; [intros _ _; split; reflexivity | intro E; contradiction].
Qed.

(** Without the registry key: success, and the callback is not called. *)
Example enumerate_without_key :
  let o := run no_serialcomm (dc_serial_enumerate 0) tt in
  result o = Some DC_STATUS_SUCCESS /\ callbacks (calls o) = [].
Proof. vm_compute. split; reflexivity. Qed.

(** Three strings and a number: three callbacks, the number passed
    over. *)
Example enumerate_four_values :
  let o := run (steady healthy) (dc_serial_enumerate 0) tt in
  result o = Some DC_STATUS_SUCCESS /\
  List.length (enumerated (trace o)) = 4%nat /\
  callbacks (calls o) = ["COM1"; "COM3"; "COM4"]%string /\
  last (calls o) GetLastError = RegCloseKey 7.
Proof. vm_compute. repeat split. Qed.

(** The key cannot be opened, or its third value cannot be read. *)
Example enumerate_failures :
  result (run (steady failing) (dc_serial_enumerate 0) tt) = Some DC_STATUS_IO /\
  let o := run (failing_after 5) (dc_serial_enumerate 0) 0%nat in
  result o = Some DC_STATUS_IO /\
  callbacks (calls o) = ["COM1"]%string /\
  indices (calls o) = [0; 1; 2].
Proof. vm_compute. repeat split. Qed.

(** ** The snapshot taken at open *)

Lemma perform_keeps_snapshot
    {W : Type} (hdr : serial_h) (m : os W) (w : W) (device device' : dc_serial_t)
    (op : operation) (status : dc_status_t) :
  result (run m (perform hdr device op) w) = Some (status, device') ->
  hFile device' = hFile device /\ dcb device' = dcb device /\
  timeouts device' = timeouts device.
Proof.
  destruct op; cbn [perform]; intro H;
    try (apply keep_result in H; subst; tauto);
    try (apply keep_fst_result in H; subst; tauto).
  - cbn in H. injection H as _ <-. tauto.
  - cbn in H. injection H as _ <-. tauto.
  - destruct status;
      try (apply dc_serial_configure_failure in H; [subst; tauto | discriminate]).
    apply dc_serial_configure_success in H as [-> _]. tauto.
Qed.

Lemma session_keeps_snapshot
    {W : Type} (hdr : serial_h) (m : os W) (ops : list operation) :
  forall (w : W) (device device' : dc_serial_t) (statuses : list dc_status_t),
    result (run m (session hdr device ops) w) = Some (statuses, device') ->
    hFile device' = hFile device /\ dcb device' = dcb device /\
    timeouts device' = timeouts device.
Proof.
  induction ops as [| op ops IH]; intros w device device' statuses.
  - cbn. intro E; injection E as _ <-. tauto.
  - cbn [session]. rewrite run_bind.
    destruct (result (run m (perform hdr device op) w)) as [[s d] |] eqn:Hop;
      cbn; [| discriminate].
    rewrite run_bind.
    destruct (result (run m (session hdr d ops) _)) as [[ss d'] |] eqn:Hrest;
      cbn; [| discriminate].
    intro E; injection E as _ <-.
    apply perform_keeps_snapshot in Hop as (E1 & E2 & E3).
    apply IH in Hrest as (E1' & E2' & E3').
    repeat split; congruence.
Qed.

(** A successful [dc_serial_open] asks the system for the settings and
    the timeouts of the port right after it obtained the handle, before any
    call that could change them, and keeps the answers in the session.
    Whatever operations follow, [dc_serial_close] starts by handing exactly
    these settings back for that handle. *)
Theorem close_restores_what_open_saved
    {W : Type} (hdr : serial_h) (m : os W) (w0 w1 w2 : W) (name : string)
    (device device' : dc_serial_t) (ops : list operation)
    (statuses : list dc_status_t) :
  result (run m (dc_serial_open true (Some name)) w0)
  = Some (DC_STATUS_SUCCESS, Some device) ->
  result (run m (session hdr device ops) w1) = Some (statuses, device') ->
  exists h d t,
    trace (run m (dc_serial_open true (Some name)) w0)
    = [IO (INFO name) tt; IO dc_iostream_allocate true;
       IO (CreateFileA (device_name name)) (Some h);
       IO (GetCommState h) (Some d); IO (GetCommTimeouts h) (Some t)] /\
    hFile device' = h /\ dcb device' = d /\ timeouts device' = t /\
    hd_error (calls (run m (dc_serial_close device') w2)) = Some (SetCommState h d).
Proof.
  intros Hopen Hsession.
  apply session_keeps_snapshot in Hsession as (E1 & E2 & E3).
  assert (Hclose : hd_error (calls (run m (dc_serial_close device') w2))
                   = Some (SetCommState (hFile device') (dcb device'))).
  { unfold dc_serial_close, last_error. repeat ask; reflexivity. }
  rewrite Hclose, E1, E2, E3. clear Hclose E1 E2 E3.
  revert Hopen. unfold dc_serial_open, last_error.
  ask.
  destruct (negb (String.prefix device_prefix name) && _); [discriminate |].
  repeat ask; try discriminate.
  intro E; injection E as <-. cbn.
  eexists _, _, _. repeat split.
Qed.

Lemma close_restores_what_open_saved_witness :
  result (run (steady healthy) (dc_serial_open true (Some "COM1"%string)) tt)
  = Some (DC_STATUS_SUCCESS, Some fresh_session) /\
  result (run (steady healthy) (session c_numbering fresh_session long_write) tt)
  = Some ([DC_STATUS_SUCCESS; DC_STATUS_SUCCESS; DC_STATUS_SUCCESS],
          set_halfduplex (set_baudrate_nbits fresh_session 10000 10) 1) /\
  hd_error (calls (run (steady healthy)
                     (dc_serial_close
                        (set_halfduplex (set_baudrate_nbits fresh_session 10000 10) 1))
                     tt))
  = Some (SetCommState 1 driver_dcb).
Proof.
  assert (H1 : result (run (steady healthy)
                         (dc_serial_open true (Some "COM1"%string)) tt)
               = Some (DC_STATUS_SUCCESS, Some fresh_session))
    by (vm_compute; reflexivity).
  assert (H2 : result (run (steady healthy)
                         (session c_numbering fresh_session long_write) tt)
               = Some ([DC_STATUS_SUCCESS; DC_STATUS_SUCCESS; DC_STATUS_SUCCESS],
                       set_halfduplex (set_baudrate_nbits fresh_session 10000 10) 1))
    by (vm_compute; reflexivity).
  split; [exact H1 |]. split; [exact H2 |].
  destruct (close_restores_what_open_saved c_numbering (steady healthy) tt tt tt
              "COM1" fresh_session _ long_write _ H1 H2)
    as (h & d & t & _ & Eh & Ed & _ & Hclose).
  rewrite <- Eh, <- Ed in Hclose. exact Hclose.
Defined.

(** ** The settings applied by [configure] *)

Lemma configure_parity_cases (hdr : serial_h) (parity : Z) (d d' : DCB) :
  configure_parity hdr parity d = Some d' ->
  parity = DC_PARITY_NONE hdr /\ d' = set_Parity d NOPARITY false \/
  parity = DC_PARITY_EVEN hdr /\ d' = set_Parity d EVENPARITY true \/
  parity = DC_PARITY_ODD hdr /\ d' = set_Parity d ODDPARITY true \/
  parity = DC_PARITY_MARK hdr /\ d' = set_Parity d MARKPARITY true \/
  parity = DC_PARITY_SPACE hdr /\ d' = set_Parity d SPACEPARITY true.
Proof.
  unfold configure_parity; intro H.
  repeat match type of H with
         | context [?a =? ?b] =>
             destruct (Z.eqb_spec a b);
             [injection H as <-; tauto |]
         end.
  discriminate.
Qed.

Lemma configure_stopbits_cases (hdr : serial_h) (stopbits : Z) (d d' : DCB) :
  configure_stopbits hdr stopbits d = Some d' ->
  stopbits = DC_STOPBITS_ONE hdr /\ d' = set_StopBits d ONESTOPBIT \/
  stopbits = DC_STOPBITS_ONEPOINTFIVE hdr /\ d' = set_StopBits d ONE5STOPBITS \/
  stopbits = DC_STOPBITS_TWO hdr /\ d' = set_StopBits d TWOSTOPBITS.
Proof.
  unfold configure_stopbits; intro H.
  repeat match type of H with
         | context [?a =? ?b] =>
             destruct (Z.eqb_spec a b);
             [injection H as <-; tauto |]
         end.
  discriminate.
Qed.

Lemma configure_flowcontrol_cases (hdr : serial_h) (flowcontrol : Z) (d d' : DCB) :
  configure_flowcontrol hdr flowcontrol d = Some d' ->
  flowcontrol = DC_FLOWCONTROL_NONE hdr /\
    d' = set_flow d false false false false DTR_CONTROL_ENABLE RTS_CONTROL_ENABLE \/
  flowcontrol = DC_FLOWCONTROL_HARDWARE hdr /\
    d' = set_flow d false false true true DTR_CONTROL_HANDSHAKE RTS_CONTROL_HANDSHAKE \/
  flowcontrol = DC_FLOWCONTROL_SOFTWARE hdr /\
    d' = set_flow d true true false false DTR_CONTROL_ENABLE RTS_CONTROL_ENABLE.
Proof.
  unfold configure_flowcontrol; intro H.
  repeat match type of H with
         | context [?a =? ?b] =>
             destruct (Z.eqb_spec a b);
             [injection H as <-; tauto |]
         end.
  discriminate.
Qed.

(** The settings [dc_serial_configure] hands to [SetCommState], when it
    gets that far: the settings it retrieved, with binary mode on,
    abort-on-error off, the baud rate and the data bits as given, parity and
    stop bits translated to the constants of the system, and the
    flow-control members set for one of the three disciplines (none: DTR and
    RTS enabled, no gating; hardware: output gated by CTS and DSR, DTR and
    RTS in handshake mode; software: XON/XOFF in both directions, DTR and
    RTS enabled). *)
Theorem dc_serial_configure_applies
    {W : Type} (hdr : serial_h) (m : os W) (w : W) (device : dc_serial_t)
    (baud databits parity stopbits flowcontrol : Z) (h : HANDLE) (d : DCB) :
  In (SetCommState h d)
     (calls (run m (dc_serial_configure hdr device baud databits parity
                      stopbits flowcontrol) w)) ->
  exists current,
    hd_error (trace (run m (dc_serial_configure hdr device baud databits parity
                              stopbits flowcontrol) w))
    = Some (IO (GetCommState (hFile device)) (Some current)) /\
    h = hFile device /\
    fBinary d = true /\ fAbortOnError d = false /\
    BaudRate d = baud /\ ByteSize d = databits /\ 5 <= databits <= 8 /\
    dcb_other d = dcb_other current /\
    (parity = DC_PARITY_NONE hdr /\ Parity d = NOPARITY /\ fParity d = false \/
     parity = DC_PARITY_EVEN hdr /\ Parity d = EVENPARITY /\ fParity d = true \/
     parity = DC_PARITY_ODD hdr /\ Parity d = ODDPARITY /\ fParity d = true \/
     parity = DC_PARITY_MARK hdr /\ Parity d = MARKPARITY /\ fParity d = true \/
     parity = DC_PARITY_SPACE hdr /\ Parity d = SPACEPARITY /\ fParity d = true) /\
    (stopbits = DC_STOPBITS_ONE hdr /\ StopBits d = ONESTOPBIT \/
     stopbits = DC_STOPBITS_ONEPOINTFIVE hdr /\ StopBits d = ONE5STOPBITS \/
     stopbits = DC_STOPBITS_TWO hdr /\ StopBits d = TWOSTOPBITS) /\
    (flowcontrol = DC_FLOWCONTROL_NONE hdr /\
       fInX d = false /\ fOutX d = false /\
       fOutxCtsFlow d = false /\ fOutxDsrFlow d = false /\
       fDtrControl d = DTR_CONTROL_ENABLE /\ fRtsControl d = RTS_CONTROL_ENABLE \/
     flowcontrol = DC_FLOWCONTROL_HARDWARE hdr /\
       fInX d = false /\ fOutX d = false /\
       fOutxCtsFlow d = true /\ fOutxDsrFlow d = true /\
       fDtrControl d = DTR_CONTROL_HANDSHAKE /\ fRtsControl d = RTS_CONTROL_HANDSHAKE \/
     flowcontrol = DC_FLOWCONTROL_SOFTWARE hdr /\
       fInX d = true /\ fOutX d = true /\
       fOutxCtsFlow d = false /\ fOutxDsrFlow d = false /\
       fDtrControl d = DTR_CONTROL_ENABLE /\ fRtsControl d = RTS_CONTROL_ENABLE).
Proof.
  unfold dc_serial_configure, last_error.
  ask.
  2: { repeat ask. unfold calls; cbn.
       intros [E | [E | [E | []]]]; discriminate. }
  rename d0 into current.
  destruct ((5 <=? databits) && (databits <=? 8)) eqn:Hbits; cbn;
    [| unfold calls; cbn; intros [E | []]; discriminate].
  destruct (configure_parity hdr parity _) as [d1 |] eqn:Hp; cbn;
    [| unfold calls; cbn; intros [E | []]; discriminate].
  destruct (configure_stopbits hdr stopbits d1) as [d2 |] eqn:Hs; cbn;
    [| unfold calls; cbn; intros [E | []]; discriminate].
  destruct (configure_flowcontrol hdr flowcontrol d2) as [d3 |] eqn:Hf; cbn;
    [| unfold calls; cbn; intros [E | []]; discriminate].
  repeat ask; unfold calls; cbn [trace map io_call hd_error In];
    (intros [E | [E | H]];
     [discriminate
     | injection E as <- <-
     | repeat (destruct H as [E | H]; [discriminate |]); contradiction]);
    exists current; (split; [reflexivity |]); (split; [reflexivity |]).
  all: apply andb_true_iff in Hbits.
  all: apply configure_parity_cases in Hp.
  all: apply configure_stopbits_cases in Hs.
  all: apply configure_flowcontrol_cases in Hf.
  all: destruct Hp as [[Ep ->] | [[Ep ->] | [[Ep ->] | [[Ep ->] | [Ep ->]]]]];
    destruct Hs as [[Es ->] | [[Es ->] | [Es ->]]];
    destruct Hf as [[Ef ->] | [[Ef ->] | [Ef ->]]];
    cbn; (repeat split; try lia; tauto).
Qed.

Lemma dc_serial_configure_applies_witness :
  In (SetCommState 1 hardware_8N1)
     (calls (run (steady healthy)
               (dc_serial_configure c_numbering fresh_session 9600 8
                  (DC_PARITY_NONE c_numbering) (DC_STOPBITS_ONE c_numbering)
                  (DC_FLOWCONTROL_HARDWARE c_numbering)) tt)) /\
  fBinary hardware_8N1 = true /\ fAbortOnError hardware_8N1 = false.
Proof.
  assert (H : In (SetCommState 1 hardware_8N1)
                (calls (run (steady healthy)
                          (dc_serial_configure c_numbering fresh_session 9600 8
                             (DC_PARITY_NONE c_numbering)
                             (DC_STOPBITS_ONE c_numbering)
                             (DC_FLOWCONTROL_HARDWARE c_numbering)) tt)))
    by (vm_compute; tauto).
  split; [exact H |].
  destruct (dc_serial_configure_applies c_numbering (steady healthy) tt
              fresh_session 9600 8 _ _ _ 1 hardware_8N1 H)
    as (current & _ & _ & Hb & Ha & _).
  split; [exact Hb | exact Ha].
Defined.

(** ** The device path built by [dc_serial_open] *)

Lemma prefix_of_prefixed (name : string) :
  String.prefix device_prefix (device_prefix ++ name) = true.
Proof.
  cbn. repeat (match goal with
               | |- context [Ascii.ascii_dec ?a ?b] =>
                   destruct (Ascii.ascii_dec a b); [| congruence]
               end). now destruct name.
Qed.

(** The path handed to [CreateFileA] is the name itself when it starts
    with the device prefix and the prefixed name otherwise; in the second
    case the path with its terminator fits the buffer of MAX_PATH bytes,
    because a longer name is refused with out-of-memory before anything is
    allocated or opened.  Building the path a second time changes
    nothing. *)
Theorem dc_serial_open_path
    {W : Type} (m : os W) (w : W) (name : string) :
  let o := run m (dc_serial_open true (Some name)) w in
  (String.prefix device_prefix name = false ->
   MAX_PATH < Z.of_nat (String.length name) + 1 + 4 ->
   calls o = [INFO name] /\ result o = Some (DC_STATUS_NOMEMORY, None)) /\
  (forall devname, In devname (paths_opened (calls o)) ->
     paths_opened (calls o) = [devname] /\
     devname = device_name name /\
     String.prefix device_prefix devname = true /\
     (String.prefix device_prefix name = true -> devname = name) /\
     (String.prefix device_prefix name = false ->
      devname = (device_prefix ++ name)%string /\
      Z.of_nat (String.length devname) + 1 <= MAX_PATH)) /\
  device_name (device_name name) = device_name name.
Proof.
  intro o; subst o.
  assert (Hidem : device_name (device_name name) = device_name name).
  { unfold device_name.
    destruct (String.prefix device_prefix name) eqn:Hp.
    - now rewrite Hp.
    - now rewrite prefix_of_prefixed. }
  assert (Hpre : String.prefix device_prefix (device_name name) = true).
  { unfold device_name.
    destruct (String.prefix device_prefix name) eqn:Hp;
      [exact Hp | apply prefix_of_prefixed]. }
  split; [| split; [| exact Hidem]].
  - intros Hp Hlong. unfold dc_serial_open.
    ask. rewrite Hp. apply Z.ltb_lt in Hlong. rewrite Hlong. cbn.
    split; reflexivity.
  - unfold dc_serial_open, last_error.
    ask.
    destruct (negb (String.prefix device_prefix name)
              && (MAX_PATH <? Z.of_nat (String.length name) + 1 + 4)) eqn:Hlong.
    + cbn. intros devname [].
    + repeat ask; unfold calls; cbn; intros devname Hin;
        try contradiction;
        (destruct Hin as [<- | []];
         split; [reflexivity |]; split; [reflexivity |];
         split; [exact Hpre |];
         unfold device_name;
         split; [intros ->; reflexivity |];
         intro Hp; rewrite Hp in *; split; [reflexivity |];
         cbn in Hlong; apply Z.ltb_ge in Hlong;
         cbn [device_prefix append String.length]; lia).
Qed.

Lemma dc_serial_open_path_witness :
  In "\\.\COM7"%string
     (paths_opened (calls (run (steady healthy)
                             (dc_serial_open true (Some "COM7"%string)) tt))) /\
  String.prefix device_prefix "\\.\COM7" = true.
Proof.
  assert (H : In "\\.\COM7"%string
                (paths_opened (calls (run (steady healthy)
                                        (dc_serial_open true (Some "COM7"%string)) tt))))
    by (vm_compute; tauto).
  split; [exact H |].
  exact (proj1 (proj2 (proj2
           (proj1 (proj2 (dc_serial_open_path (steady healthy) tt "COM7")) _ H)))).
Defined.

(** A name that already carries the prefix is passed on as it is,
    whatever its length. *)
Example open_prefixed_name :
  paths_opened (calls (run (steady healthy)
                         (dc_serial_open true (Some "\\.\COM12"%string)) tt))
  = ["\\.\COM12"%string].
Proof. vm_compute. reflexivity. Qed.

(** ** What [dc_serial_open] leaves behind *)

(** [dc_serial_open] always returns.  When it returns success it hands
    out a session on the one handle it opened, it has allocated one stream,
    and it has closed and deallocated nothing.  When it returns anything
    else it hands out nothing, every handle it opened has been closed and
    every stream it allocated has been deallocated. *)
Theorem dc_serial_open_keeps_nothing_on_failure
    {W : Type} (m : os W) (w : W) (out : bool) (name : option string) :
  let o := run m (dc_serial_open out name) w in
  exists status r,
    result o = Some (status, r) /\
    (status = DC_STATUS_SUCCESS ->
     exists device,
       r = Some device /\
       handles_opened (trace o) = [hFile device] /\
       handles_closed (calls o) = [] /\
       allocations (trace o) = 1%nat /\
       deallocations (calls o) = 0%nat /\
       failures (trace o) = []) /\
    (status <> DC_STATUS_SUCCESS ->
     r = None /\
     handles_closed (calls o) = handles_opened (trace o) /\
     deallocations (calls o) = allocations (trace o)).
Proof.
  intro o; subst o. unfold dc_serial_open, last_error.
  destruct out;
    [| cbn; eexists _, _; repeat split; discriminate].
  destruct name as [name |];
    [| cbn; eexists _, _; repeat split; discriminate].
  ask.
  destruct (negb (String.prefix device_prefix name) && _);
    [cbn; eexists _, _; repeat split; discriminate |].
  repeat ask; unfold calls, failures; cbn; eexists _, _;
    (split; [reflexivity |]);
    (split;
     [ intro E;
       first [ discriminate E
             | now apply syserror_not_success in E
             | eexists; repeat split ]
     | intro E; first [ now contradiction E | repeat split ] ]).
Qed.

Example open_fails_late :
  let o := run (failing_after 4) (dc_serial_open true (Some "COM1"%string)) 0%nat in
  calls o = [INFO "COM1"; dc_iostream_allocate; CreateFileA "\\.\COM1";
             GetCommState 1; GetCommTimeouts 1; GetLastError;
             SYSERROR ERROR_ACCESS_DENIED; CloseHandle 1;
             dc_iostream_deallocate] /\
  result o = Some (DC_STATUS_NOACCESS, None).
Proof. vm_compute. split; reflexivity. Qed.

(** ** Operations fail fast and stay on their handle *)

(** Follow an operation of the dispatch table through all its branches. *)
Ltac walk_operation :=
  repeat first
    [ progress walk
    | match goal with
      | |- context [(5 <=? ?d) && (?d <=? 8)] =>
          destruct ((5 <=? d) && (d <=? 8))
      | |- context [match configure_parity ?h ?p ?d with _ => _ end] =>
          destruct (configure_parity h p d)
      | |- context [match configure_stopbits ?h ?p ?d with _ => _ end] =>
          destruct (configure_stopbits h p d)
      | |- context [match configure_flowcontrol ?h ?p ?d with _ => _ end] =>
          destruct (configure_flowcontrol h p d)
      | |- context [match purge_flags ?h ?d with _ => _ end] =>
          destruct (purge_flags h d)
      | |- context [if negb (?l =? 0) then _ else _] =>
          destruct (l =? 0)
      end; cbn -[Z.eqb Z.ltb Z.leb] ].

Ltac unfold_operation :=
  unfold perform, keep, keep_fst, dc_serial_set_timeout, dc_serial_set_latency,
    dc_serial_set_halfduplex, dc_serial_set_break, dc_serial_set_dtr,
    dc_serial_set_rts, dc_serial_get_lines, dc_serial_get_available,
    dc_serial_configure, dc_serial_read, dc_serial_write, dc_serial_flush,
    dc_serial_purge, dc_serial_sleep, start_clock, turnaround, last_error.

Arguments line_flags : simpl never.
Arguments update_timeouts : simpl never.

(** Every operation of the dispatch table stops at the first call to the
    system that fails: at most one call fails, it is the last one apart from
    the diagnostics, its error code is fetched once, and the operation
    returns the translation of that code and leaves the session state as it
    was.  Without a failure no error code is fetched. *)
Theorem operations_fail_fast
    {W : Type} (hdr : serial_h) (m : os W) (w : W) (device : dc_serial_t)
    (op : operation) :
  let o := run m (perform hdr device op) w in
  match failures (trace o) with
  | [] => error_codes (trace o) = []
  | [c] =>
      exists e,
        error_codes (trace o) = [e] /\
        last (system_calls (calls o)) GetLastError = c /\
        result o = Some (syserror e, device)
  | _ => False
  end.
Proof.
  intro o; subst o.
  destruct op; unfold_operation;
    try (destruct (Z.eqb_spec (halfduplex device) 0));
    walk_operation; unfold failures, calls; cbn;
    first [reflexivity | eexists; repeat split].
Qed.

Lemma calls_bind {W A B : Type} (m : os W) (p : prog A) (f : A -> prog B) (w : W) :
  calls (run m (bind p f) w) =
  calls (run m p w) ++
  match result (run m p w) with
  | Some a => calls (run m (f a) (world (run m p w)))
  | None => []
  end.
Proof.
  rewrite run_bind. unfold calls.
  destruct (result (run m p w)); cbn.
  - apply map_app.
  - now rewrite app_nil_r.
Qed.

Lemma perform_confined
    {W : Type} (hdr : serial_h) (m : os W) (w : W) (device : dc_serial_t)
    (op : operation) :
  forallb (confined (hFile device)) (calls (run m (perform hdr device op) w)) = true.
Proof.
  destruct op; unfold_operation;
    try (destruct (Z.eqb_spec (halfduplex device) 0));
    walk_operation; unfold calls; cbn; rewrite ?Z.eqb_refl; reflexivity.
Qed.

(** Whatever sequence of operations is applied to a session, every
    communication call goes to the handle of that session; no operation
    closes the handle, opens another one, allocates or deallocates a stream,
    or reads the registry. *)
Theorem session_confined
    {W : Type} (hdr : serial_h) (m : os W) (ops : list operation) :
  forall (w : W) (device : dc_serial_t),
    forallb (confined (hFile device)) (calls (run m (session hdr device ops) w))
    = true.
Proof.
  induction ops as [| op ops IH]; intros w device.
  - reflexivity.
  - cbn [session]. rewrite calls_bind, forallb_app, perform_confined.
    destruct (result (run m (perform hdr device op) w)) as [[s d] |] eqn:Hop;
      [| reflexivity].
    apply perform_keeps_snapshot in Hop as (Eh & _ & _).
    rewrite calls_bind, forallb_app. cbn [snd]. rewrite <- Eh, IH.
    now destruct (result (run m (session hdr d ops) _)).
Qed.

Example busy_day_calls :
  let o := run port (session c_numbering fresh_session busy_day)
             {| port_dcb := driver_dcb; port_timeouts := driver_timeouts |} in
  map handle_of (system_calls (calls o))
  = [Some 1; Some 1; Some 1; Some 1; None; None; Some 1; None; None; Some 1] /\
  option_map fst (result o)
  = Some [DC_STATUS_SUCCESS; DC_STATUS_SUCCESS; DC_STATUS_SUCCESS;
          DC_STATUS_SUCCESS; DC_STATUS_SUCCESS].
Proof. vm_compute. split; reflexivity. Qed.

(** ** Switching half-duplex on and off *)

Lemma to_int32_zero (v : Z) : 0 <= v <= UINT_MAX -> (to_int32 v = 0 <-> v = 0).
Proof.
  unfold to_int32, UINT_MAX; intro H.
  pose proof (Z.div_mod (v + 2147483648) 4294967296 ltac:(lia)) as E.
  pose proof (Z.mod_pos_bound (v + 2147483648) 4294967296 ltac:(lia)) as B.
  split; [intro Hz | intros ->; reflexivity]. lia.
Qed.

(** [dc_serial_set_halfduplex] always succeeds, and its argument decides
    how the next write goes about its work.  After a zero the write makes a
    single call to the system, [WriteFile], never consults the performance
    counter or sleeps, and always returns.  After anything else the write
    begins with the frequency of the performance counter, and hands nothing
    to [WriteFile] before it has read both the frequency and the counter. *)
Theorem set_halfduplex_decides_timing
    {W : Type} (m : os W) (w : W) (device : dc_serial_t) (value size : Z)
    (actual : bool) :
  0 <= value <= UINT_MAX ->
  let device' := snd (dc_serial_set_halfduplex device value) in
  let o := run m (dc_serial_write device' size actual) w in
  fst (dc_serial_set_halfduplex device value) = DC_STATUS_SUCCESS /\
  (value = 0 ->
   system_calls (calls o) = [WriteFile (hFile device) (to_uint32 size)] /\
   result o <> None) /\
  (value <> 0 ->
   hd_error (calls o) = Some QueryPerformanceFrequency /\
   (existsb is_transfer (calls o) = true ->
    (2 <= List.length (readings (trace o)))%nat)).
Proof.
  intros Hv device' o; subst o device'.
  pose proof (to_int32_zero value Hv) as Hz.
  split; [reflexivity |].
  unfold dc_serial_write, start_clock, turnaround, dc_serial_sleep, last_error.
  cbn [dc_serial_set_halfduplex set_halfduplex snd halfduplex hFile nbits baudrate].
  destruct (Z.eqb_spec (to_int32 value) 0) as [E | E]; cbn -[Z.eqb].
  - split; [| intro Hn; apply Hz in E; contradiction].
    intros _. walk; unfold calls; cbn; split; (reflexivity || discriminate).
  - split; [intro Hn; apply Hz in Hn; contradiction |].
    intros _. walk; unfold calls; cbn;
      (split; [reflexivity | first [discriminate | intros _; lia]]).
Qed.

Lemma set_halfduplex_decides_timing_witness :
  0 <= 0 <= UINT_MAX /\
  system_calls
    (calls (run (steady failing)
              (dc_serial_write (snd (dc_serial_set_halfduplex half_duplex_session 0))
                 4 true) tt))
  = [WriteFile 1 4].
Proof.
  assert (H : 0 <= 0 <= UINT_MAX) by (unfold UINT_MAX; lia).
  split; [exact H |].
  exact (proj1 (proj1 (proj2 (set_halfduplex_decides_timing (steady failing) tt
                                half_duplex_session 0 4 true H)) eq_refl)).
Defined.

(** ** Sizes beyond a DWORD *)

(** [ReadFile] and [WriteFile] take the size as a DWORD and count the
    bytes in a DWORD.  A read or write of more than 4294967295 bytes asks
    the system for the size modulo 2^32 and, the count being a DWORD, never
    returns success. *)
Theorem transfer_beyond_dword
    {W : Type} (m : os W) (w : W) (device : dc_serial_t) (size : Z) (actual : bool)
    (o : outcome W (dc_status_t * option Z)) :
  o = run m (dc_serial_read device size actual) w \/
  o = run m (dc_serial_write device size actual) w ->
  UINT_MAX < size ->
  0 <= transferred (trace o) <= UINT_MAX ->
  (forall c, In c (calls o) -> is_transfer c = true ->
     c = ReadFile (hFile device) (size mod 4294967296) \/
     c = WriteFile (hFile device) (size mod 4294967296)) /\
  (forall r, result o = Some r -> fst r <> DC_STATUS_SUCCESS).
Proof.
  intros [-> | ->] Hsize.
  - unfold dc_serial_read, last_error.
    walk; unfold transferred, calls; cbn -[Z.eqb]; intro Hc; (split;
      [ intros c Hin Ht;
        repeat (destruct Hin as [<- | Hin]; [try discriminate Ht; tauto |]);
        contradiction
      | intros r E; injection E as <-; cbn -[Z.eqb];
        first [ apply syserror_not_success
              | destruct (Z.eqb_spec count size); [lia | discriminate] ] ]).
  - unfold dc_serial_write, start_clock, turnaround, dc_serial_sleep, last_error.
    destruct (halfduplex device =? 0); cbn -[Z.eqb];
      walk; unfold transferred, calls; cbn -[Z.eqb]; intro Hc; (split;
      [ intros c Hin Ht;
        repeat (destruct Hin as [<- | Hin]; [try discriminate Ht; tauto |]);
        contradiction
      | intros r E; try discriminate E; injection E as <-; cbn -[Z.eqb];
        first [ apply syserror_not_success
              | destruct (Z.eqb_spec count size); [lia | discriminate] ] ]).
Qed.

Lemma transfer_beyond_dword_witness :
  UINT_MAX < 4294967300 /\
  result (run (steady healthy) (dc_serial_read fresh_session 4294967300 true) tt)
  = Some (DC_STATUS_TIMEOUT, Some 4) /\
  DC_STATUS_TIMEOUT <> DC_STATUS_SUCCESS.
Proof.
  assert (H1 : UINT_MAX < 4294967300) by (unfold UINT_MAX; lia).
  assert (H2 : result (run (steady healthy)
                         (dc_serial_read fresh_session 4294967300 true) tt)
               = Some (DC_STATUS_TIMEOUT, Some 4)) by (vm_compute; reflexivity).
  assert (H3 : 0 <= transferred
                      (trace (run (steady healthy)
                                (dc_serial_read fresh_session 4294967300 true) tt))
               <= UINT_MAX) by (vm_compute; split; discriminate).
  split; [exact H1 |]. split; [exact H2 |].
  exact (proj2 (transfer_beyond_dword (steady healthy) tt fresh_session 4294967300
                  true _ (or_introl eq_refl) H1 H3) _ H2).
Defined.

(** ** The registry key of an enumeration *)

Lemma c_string_length (s : string) :
  (String.length (c_string s) <= String.length s)%nat.
Proof.
  induction s as [| c s IH]; cbn; [lia |].
  destruct (Ascii.eqb c zero); cbn; lia.
Qed.

Lemma c_string_no_nul (s : string) : no_nul (c_string s) = true.
Proof.
  induction s as [| c s IH]; cbn; [reflexivity |].
  destruct (Ascii.eqb c zero) eqn:E; cbn; [reflexivity |].
  rewrite E. exact IH.
Qed.

Lemma enumerate_values_closes
    {W : Type} (m : os W) (hKey : HKEY) (userdata : Z) (n : nat) :
  forall (i : Z) (w : W),
  exists body,
    calls (run m (enumerate_values hKey userdata n i) w)
    = body ++ [RegCloseKey hKey] /\
    forallb (enumeration_step hKey userdata) body = true.
Proof.
  induction n as [| n IH]; intros i w.
  - cbn [enumerate_values]. ask. exists []. split; reflexivity.
  - cbn [enumerate_values]. ask.
    change (rv_rc a =? ERROR_SUCCESS) with (readable a).
    change (rv_type a =? REG_SZ) with (is_string a).
    rewrite fits_leb.
    destruct (readable a); cbn [negb].
    2: { ask. exists [RegEnumValueA hKey i]. unfold calls; cbn.
         rewrite Z.eqb_refl. split; reflexivity. }
    destruct (is_string a); cbn [negb].
    + destruct (fits a) eqn:Hf; cbn [negb].
      2: { ask. exists [RegEnumValueA hKey i]. unfold calls; cbn.
           rewrite Z.eqb_refl. split; reflexivity. }
      ask.
      destruct (IH (i + 1) w1) as (body & E & F).
      destruct (run m (enumerate_values hKey userdata n (i + 1)) w1)
        as [t res w2].
      unfold calls in *; cbn [trace map io_call] in E |- *.
      exists (RegEnumValueA hKey i
                :: callback (c_string (rv_data a)) userdata :: body).
      rewrite E. split; [reflexivity |].
      cbn [forallb enumeration_step]. rewrite !Z.eqb_refl, F, c_string_no_nul.
      pose proof (c_string_length (rv_data a)) as L.
      unfold fits in Hf. apply Z.ltb_lt in Hf.
      destruct (Z.ltb_spec (Z.of_nat (String.length (c_string (rv_data a))))
                  sizeof_data); [reflexivity | lia].
    + destruct (IH (i + 1) w0) as (body & E & F).
      destruct (run m (enumerate_values hKey userdata n (i + 1)) w0)
        as [t res w2].
      unfold calls in *; cbn [trace map io_call] in E |- *.
      exists (RegEnumValueA hKey i :: body).
      rewrite E. split; [reflexivity |].
      cbn [forallb enumeration_step]. rewrite Z.eqb_refl, F. reflexivity.
Qed.

(** An enumeration that obtained the registry key gives it back exactly
    once, as its last call, whatever ends it; one that did not obtain the
    key calls nothing else.  Between the query of the number of values and
    the release of the key it calls only [RegEnumValueA] on that key and the
    callback, and every callback receives the caller's [userdata] and a
    string without NUL of fewer than 512 characters. *)
Theorem dc_serial_enumerate_releases_key
    {W : Type} (m : os W) (w : W) (userdata : Z) :
  let o := run m (dc_serial_enumerate userdata) w in
  exists rc hKey,
    hd_error (trace o) = Some (IO RegOpenKeyExA (rc, hKey)) /\
    (rc <> ERROR_SUCCESS -> calls o = [RegOpenKeyExA]) /\
    (rc = ERROR_SUCCESS ->
     exists body,
       calls o
       = RegOpenKeyExA :: RegQueryInfoKey hKey :: body ++ [RegCloseKey hKey] /\
       forallb (enumeration_step hKey userdata) body = true).
Proof.
  intros o; subst o. unfold dc_serial_enumerate.
  ask. rename z into rc, h into hKey. exists rc, hKey.
  destruct (Z.eqb_spec rc ERROR_SUCCESS) as [Hrc | Hrc]; cbn [negb].
  - ask. rename z into qrc, d into count.
    destruct (qrc =? ERROR_SUCCESS); cbn [negb].
    + destruct (enumerate_values_closes m hKey userdata (Z.to_nat count) 0 w1)
        as (body & E & F).
      destruct (run m (enumerate_values hKey userdata (Z.to_nat count) 0) w1)
        as [t res w2].
      unfold calls in *; cbn in E |- *.
      split; [reflexivity |]. split; [intro H; contradiction |].
      intros _. exists body. rewrite E. split; [reflexivity | exact F].
    + ask. unfold calls; cbn.
      split; [reflexivity |]. split; [intro H; contradiction |].
      intros _. exists []. split; reflexivity.
  - destruct (rc =? ERROR_FILE_NOT_FOUND); unfold calls; cbn;
      (split; [reflexivity |]; split; [reflexivity | intro H; contradiction]).
Qed.

(** ** Purging and the modem lines *)


Lemma line_flags_lor (hdr : serial_h) (stats : Z) :
  line_flags hdr stats
  = Z.lor (Z.lor (Z.lor (if Z.land stats MS_RLSD_ON =? 0 then 0 else DC_LINE_DCD hdr)
                        (if Z.land stats MS_CTS_ON =? 0 then 0 else DC_LINE_CTS hdr))
                 (if Z.land stats MS_DSR_ON =? 0 then 0 else DC_LINE_DSR hdr))
          (if Z.land stats MS_RING_ON =? 0 then 0 else DC_LINE_RNG hdr).
Proof.
  unfold line_flags.
  destruct (Z.land stats MS_RLSD_ON =? 0), (Z.land stats MS_CTS_ON =? 0),
    (Z.land stats MS_DSR_ON =? 0), (Z.land stats MS_RING_ON =? 0);
    cbn [negb]; rewrite ?Z.lor_0_l, ?Z.lor_0_r; reflexivity.
Qed.

Lemma land_choice (c : bool) (a b : Z) :
  Z.land a b = 0 -> Z.land (if c then 0 else a) b = 0.
Proof. destruct c; [intros _; apply Z.land_0_l | trivial]. Qed.

Lemma land_choice_same (c : bool) (a : Z) :
  Z.land (if c then 0 else a) a = if c then 0 else a.
Proof. destruct c; [apply Z.land_0_l | apply Z.land_diag]. Qed.

(** [dc_serial_get_lines] always returns, after the one call
    [GetCommModemStatus] on the session's handle.  When that call fails the
    status is the translated error and nothing is stored.  When it succeeds
    the status is success, and through a non-null [value] the function
    stores the union of the flags of the lines that are on.  With line flags
    that share no bit, each flag can be read back from the stored value: it
    is there exactly when the system reported the line's status bit (RLSD
    for DCD, CTS, DSR, RING for RNG); the other bits of the modem status
    play no part. *)
Theorem dc_serial_get_lines_reports
    {W : Type} (hdr : serial_h) (m : os W) (w : W) (device : dc_serial_t)
    (value : bool) :
  Z.land (DC_LINE_DCD hdr) (DC_LINE_CTS hdr) = 0 ->
  Z.land (DC_LINE_DCD hdr) (DC_LINE_DSR hdr) = 0 ->
  Z.land (DC_LINE_DCD hdr) (DC_LINE_RNG hdr) = 0 ->
  Z.land (DC_LINE_CTS hdr) (DC_LINE_DSR hdr) = 0 ->
  Z.land (DC_LINE_CTS hdr) (DC_LINE_RNG hdr) = 0 ->
  Z.land (DC_LINE_DSR hdr) (DC_LINE_RNG hdr) = 0 ->
  let o := run m (dc_serial_get_lines hdr device value) w in
  hd_error (calls o) = Some (GetCommModemStatus (hFile device)) /\
  match result o with
  | Some (status, Some lines) =>
      status = DC_STATUS_SUCCESS /\ value = true /\
      exists stats,
        modem_status (trace o) = Some stats /\
        lines = line_flags hdr (Z.land stats 240) /\
        Z.land lines (DC_LINE_DCD hdr)
        = (if Z.land stats MS_RLSD_ON =? 0 then 0 else DC_LINE_DCD hdr) /\
        Z.land lines (DC_LINE_CTS hdr)
        = (if Z.land stats MS_CTS_ON =? 0 then 0 else DC_LINE_CTS hdr) /\
        Z.land lines (DC_LINE_DSR hdr)
        = (if Z.land stats MS_DSR_ON =? 0 then 0 else DC_LINE_DSR hdr) /\
        Z.land lines (DC_LINE_RNG hdr)
        = (if Z.land stats MS_RING_ON =? 0 then 0 else DC_LINE_RNG hdr)
  | Some (status, None) =>
      status = DC_STATUS_SUCCESS /\ value = false /\ failures (trace o) = []
      \/ status <> DC_STATUS_SUCCESS /\
         failures (trace o) = [GetCommModemStatus (hFile device)]
  | None => False
  end.
Proof.
  intros Hdc Hdd Hdr Hcd Hcr Hsr o; subst o.
  assert (Hcd' := Hdc). rewrite Z.land_comm in Hcd'.
  assert (Hdd' := Hdd). rewrite Z.land_comm in Hdd'.
  assert (Hdr' := Hdr). rewrite Z.land_comm in Hdr'.
  assert (Hcd2 := Hcd). rewrite Z.land_comm in Hcd2.
  assert (Hcr' := Hcr). rewrite Z.land_comm in Hcr'.
  assert (Hsr' := Hsr). rewrite Z.land_comm in Hsr'.
  unfold dc_serial_get_lines, last_error.
  ask.
  - rename d into stats. split; [reflexivity |].
    destruct value.
    + split; [reflexivity |]. split; [reflexivity |].
      exists stats. split; [reflexivity |].
      assert (Hmask : forall bit, Z.land 240 bit = bit ->
                Z.land (Z.land stats 240) bit = Z.land stats bit)
        by (intros bit Hb; rewrite <- Z.land_assoc, Hb; reflexivity).
      split.
      { rewrite !line_flags_lor.
        rewrite (Hmask MS_RLSD_ON eq_refl), (Hmask MS_CTS_ON eq_refl),
          (Hmask MS_DSR_ON eq_refl), (Hmask MS_RING_ON eq_refl).
        reflexivity. }
      rewrite line_flags_lor, !Z.land_lor_distr_l.
      rewrite !land_choice_same.
      rewrite !(land_choice _ _ _ Hdc), !(land_choice _ _ _ Hdd),
        !(land_choice _ _ _ Hdr), !(land_choice _ _ _ Hcd),
        !(land_choice _ _ _ Hcr), !(land_choice _ _ _ Hsr),
        !(land_choice _ _ _ Hcd'), !(land_choice _ _ _ Hdd'),
        !(land_choice _ _ _ Hdr'), !(land_choice _ _ _ Hcd2),
        !(land_choice _ _ _ Hcr'), !(land_choice _ _ _ Hsr').
      rewrite ?Z.lor_0_l, ?Z.lor_0_r. repeat split; reflexivity.
    + left. repeat split; reflexivity.
  - walk. unfold calls, failures; cbn. split; [reflexivity |].
    right. split; [apply syserror_not_success | reflexivity].
Qed.

Lemma dc_serial_get_lines_reports_witness :
  exists lines,
    result (run (steady (modem_lines 145))
              (dc_serial_get_lines c_numbering fresh_session true) tt)
    = Some (DC_STATUS_SUCCESS, Some lines) /\
    Z.land lines (DC_LINE_DCD c_numbering) = DC_LINE_DCD c_numbering /\
    Z.land lines (DC_LINE_CTS c_numbering) = DC_LINE_CTS c_numbering /\
    Z.land lines (DC_LINE_DSR c_numbering) = 0 /\
    Z.land lines (DC_LINE_RNG c_numbering) = 0.
Proof.
  pose proof (dc_serial_get_lines_reports c_numbering (steady (modem_lines 145)) tt
                fresh_session true eq_refl eq_refl eq_refl eq_refl eq_refl eq_refl)
    as P.
  destruct P as [_ P].
  destruct (result (run (steady (modem_lines 145))
                      (dc_serial_get_lines c_numbering fresh_session true) tt))
    as [[status [lines |]] |] eqn:E; vm_compute in E; try discriminate E.
  destruct P as (-> & _ & stats & Hs & _ & Hd & Hc & Hr & Hg).
  vm_compute in Hs. injection Hs as <-.
  exists lines. repeat split; assumption.
Defined.

(** ** A port that remembers its settings *)

Lemma open_on_port (s0 : port_state) (name : string) (status : dc_status_t)
    (device : dc_serial_t) :
  result (run port (dc_serial_open true (Some name)) s0)
  = Some (status, Some device) ->
  dcb device = port_dcb s0 /\ timeouts device = port_timeouts s0 /\
  world (run port (dc_serial_open true (Some name)) s0) = s0.
Proof.
  unfold dc_serial_open, last_error. cbn.
  destruct (negb (String.prefix device_prefix name) && _); cbn; [discriminate |].
  intro E; injection E as _ <-. repeat split.
Qed.

Lemma close_on_port (device : dc_serial_t) (s : port_state) :
  result (run port (dc_serial_close device) s) = Some DC_STATUS_SUCCESS /\
  world (run port (dc_serial_close device) s)
  = {| port_dcb := dcb device; port_timeouts := timeouts device |}.
Proof. unfold dc_serial_close. cbn. split; reflexivity. Qed.

(** On a port that keeps the settings and timeouts last applied to it and
    refuses nothing, a session leaves no trace: whatever operations were
    performed between a successful open and the close, and whatever they
    returned, close succeeds and the settings and the timeouts of the port
    are afterwards the ones it had before the open. *)
Theorem open_session_close_round_trip
    (hdr : serial_h) (s0 : port_state) (name : string) (ops : list operation)
    (status : dc_status_t) (device device' : dc_serial_t)
    (statuses : list dc_status_t) :
  let opened := run port (dc_serial_open true (Some name)) s0 in
  let used := run port (session hdr device ops) (world opened) in
  let closed := run port (dc_serial_close device') (world used) in
  result opened = Some (status, Some device) ->
  result used = Some (statuses, device') ->
  result closed = Some DC_STATUS_SUCCESS /\ world closed = s0.
Proof.
  intros opened used closed Hopen Hused; subst opened used closed.
  apply open_on_port in Hopen as (Hd & Ht & _).
  apply session_keeps_snapshot in Hused as (_ & Hd' & Ht').
  destruct (close_on_port device'
              (world (run port (session hdr device ops)
                        (world (run port (dc_serial_open true (Some name)) s0)))))
    as [Hr Hw].
  split; [exact Hr |].
  rewrite Hw, Hd', Ht', Hd, Ht. destruct s0; reflexivity.
Qed.

Lemma open_session_close_round_trip_witness :
  world (run port (dc_serial_close after_busy_day)
           (world (run port (session c_numbering fresh_session busy_day)
                     (world (run port (dc_serial_open true (Some "COM7"%string))
                               port_at_rest)))))
  = port_at_rest.
Proof.
  assert (H1 : result (run port (dc_serial_open true (Some "COM7"%string))
                         port_at_rest)
               = Some (DC_STATUS_SUCCESS, Some fresh_session))
    by (vm_compute; reflexivity).
  assert (H2 : result (run port (session c_numbering fresh_session busy_day)
                         (world (run port (dc_serial_open true (Some "COM7"%string))
                                   port_at_rest)))
               = Some ([DC_STATUS_SUCCESS; DC_STATUS_SUCCESS; DC_STATUS_SUCCESS;
                        DC_STATUS_SUCCESS; DC_STATUS_SUCCESS], after_busy_day))
    by (vm_compute; reflexivity).
  exact (proj2 (open_session_close_round_trip c_numbering port_at_rest "COM7"
                  busy_day DC_STATUS_SUCCESS fresh_session after_busy_day _ H1 H2)).
Defined.

(** ** The arguments of [dc_serial_configure] *)

Lemma configure_parity_known (hdr : serial_h) (parity : Z) (d : DCB) :
  known_parity hdr parity = is_some (configure_parity hdr parity d).
Proof.
  unfold known_parity, configure_parity; cbn [existsb].
  repeat match goal with
         | |- context [?a =? ?b] => destruct (a =? b); cbn; [reflexivity |]
         end.
  reflexivity.
Qed.

Lemma configure_stopbits_known (hdr : serial_h) (stopbits : Z) (d : DCB) :
  known_stopbits hdr stopbits = is_some (configure_stopbits hdr stopbits d).
Proof.
  unfold known_stopbits, configure_stopbits; cbn [existsb].
  repeat match goal with
         | |- context [?a =? ?b] => destruct (a =? b); cbn; [reflexivity |]
         end.
  reflexivity.
Qed.

Lemma configure_flowcontrol_known (hdr : serial_h) (flowcontrol : Z) (d : DCB) :
  known_flowcontrol hdr flowcontrol
  = is_some (configure_flowcontrol hdr flowcontrol d).
Proof.
  unfold known_flowcontrol, configure_flowcontrol; cbn [existsb].
  repeat match goal with
         | |- context [?a =? ?b] => destruct (a =? b); cbn; [reflexivity |]
         end.
  reflexivity.
Qed.

Arguments known_parity : simpl never.
Arguments known_stopbits : simpl never.
Arguments known_flowcontrol : simpl never.

(** Once [dc_serial_configure] has retrieved the current settings, its
    arguments alone decide whether the port is touched.  With 5 to 8 data
    bits and a parity, a number of stop bits and a flow control among the
    enumerators of [serial.h], the second call is [SetCommState] on the
    session's handle.  With any other argument, be it the parity, the stop
    bits or the flow control, the function returns the invalid-arguments
    status with the session unchanged, and [SetCommState] is not called. *)
Theorem dc_serial_configure_validates
    {W : Type} (hdr : serial_h) (m : os W) (w : W) (device : dc_serial_t)
    (baud databits parity stopbits flowcontrol : Z) :
  let o := run m (dc_serial_configure hdr device baud databits parity stopbits
                    flowcontrol) w in
  ~ In (GetCommState (hFile device)) (failures (trace o)) ->
  if valid_line hdr databits parity stopbits flowcontrol then
    exists d, nth_error (calls o) 1 = Some (SetCommState (hFile device) d)
  else
    calls o = [GetCommState (hFile device)] /\
    result o = Some (DC_STATUS_INVALIDARGS, device).
Proof.
  intros o; subst o. unfold dc_serial_configure, last_error, valid_line.
  ask.
  - intros _.
    destruct ((5 <=? databits) && (databits <=? 8)); cbn [negb andb];
      [| unfold calls; cbn; split; reflexivity].
    rewrite (configure_parity_known hdr parity
               (set_ByteSize (set_binary d baud) databits)).
    destruct (configure_parity hdr parity _) as [d1 |]; cbn [is_some andb];
      [| unfold calls; cbn; split; reflexivity].
    rewrite (configure_stopbits_known hdr stopbits d1).
    destruct (configure_stopbits hdr stopbits d1) as [d2 |]; cbn [is_some andb];
      [| unfold calls; cbn; split; reflexivity].
    rewrite (configure_flowcontrol_known hdr flowcontrol d2).
    destruct (configure_flowcontrol hdr flowcontrol d2) as [d3 |];
      cbn [is_some andb]; [| unfold calls; cbn; split; reflexivity].
    exists d3. walk; reflexivity.
  - walk. unfold failures; cbn. intro H. exfalso. apply H. left. reflexivity.
Qed.

Lemma dc_serial_configure_validates_witness :
  result (run (steady healthy)
            (dc_serial_configure c_numbering fresh_session 9600 8 7 0 0) tt)
  = Some (DC_STATUS_INVALIDARGS, fresh_session).
Proof.
  assert (H : ~ In (GetCommState (hFile fresh_session))
                (failures
                   (trace (run (steady healthy)
                             (dc_serial_configure c_numbering fresh_session 9600 8
                                7 0 0) tt))))
    by (vm_compute; intros []).
  pose proof (dc_serial_configure_validates c_numbering (steady healthy) tt
                fresh_session 9600 8 7 0 0 H) as P.
  vm_compute in P. vm_compute. exact (proj2 P).
Defined.
